(** * Inbound carrier backend (app/main.py): a shallow embedding and its properties

    The development follows the layout of [app/main.py]:
    - Python strings, values and the builtins the module relies on;
    - the record store and its loader ([_load_file_rows], [LOADS]);
    - the load filter and ranker ([_norm], [_filter_loads]), once as a pure
      function and once over a heap of mutable objects;
    - the carrier helpers ([choose_carrier], [compute_verdict]) and the tail
      of the [find_carrier] endpoint;
    - the metrics aggregator ([metrics]).

    Python [str] values are modelled by [string]: sequences of code points
    below 256.  Exceptions are values of [exn] carried by [result]. *)

From Stdlib Require Import ZArith QArith Ascii String DecimalString.
From stdpp Require Import base option list strings gmap sorting.

Set Warnings "-register-all".

Local Open Scope string_scope.
Local Open Scope list_scope.

(** ** Python strings *)

Module PyStr.

(** [str.isspace] on one code point below 256: TAB..CR, FS..US, SPACE,
    NEL and NBSP. *)
Definition isspace (c : ascii) : bool :=
  let n := nat_of_ascii c in
  ((9 <=? n) && (n <=? 13) || (28 <=? n) && (n <=? 32)
   || (n =? 133) || (n =? 160))%nat.

(** [str.lower] on one code point below 256: A..Z and the Latin-1 capitals
    0xC0..0xDE (the multiplication sign 0xD7 apart) move up by 32. *)
Definition lower_char (c : ascii) : ascii :=
  let n := nat_of_ascii c in
  if ((65 <=? n) && (n <=? 90)
      || (192 <=? n) && (n <=? 222) && negb (n =? 215))%nat
  then ascii_of_nat (n + 32) else c.

Fixpoint lower (s : string) : string :=
  match s with
  | EmptyString => EmptyString
  | String c t => String (lower_char c) (lower t)
  end.

Fixpoint lstrip (s : string) : string :=
  match s with
  | EmptyString => EmptyString
  | String c t => if isspace c then lstrip t else s
  end.

Definition rstrip (s : string) : string := String.rev (lstrip (String.rev s)).

(** [s.strip()] *)
Definition strip (s : string) : string := rstrip (lstrip s).

(** [needle in hay] for two strings. *)
Fixpoint contains (needle hay : string) : bool :=
  String.prefix needle hay
  || match hay with
     | EmptyString => false
     | String _ t => contains needle t
     end.

(** [s.endswith(suf)] *)
Definition endswith (s suf : string) : bool :=
  String.prefix (String.rev suf) (String.rev s).

(** [sep.join(l)] *)
Fixpoint join (sep : string) (l : list string) : string :=
  match l with
  | [] => ""
  | [x] => x
  | x :: t => x +:+ sep +:+ join sep t
  end.

(** [str(n)] for an integer. *)
Definition of_Z (z : Z) : string := NilZero.string_of_int (Z.to_int z).

(** Every code point of [s] is white space ([s.strip() == ""]). *)
Fixpoint blank (s : string) : bool :=
  match s with
  | EmptyString => true
  | String c t => isspace c && blank t
  end.

End PyStr.

(** ** Exceptions *)

Inductive exn : Type :=
| AttributeError
| TypeError
| ValueError
| OverflowError
| OSError
| RuntimeError (msg : string)
| SystemError.  (* a reference to no object; no run of the module reaches it *)

Inductive result (A : Type) : Type :=
| Ok (a : A)
| Raise (e : exn).
Arguments Ok {A} a.
Arguments Raise {A} e.

(** Sequencing: the first exception raised ends the computation. *)
Definition bind {A B} (m : result A) (k : A -> result B) : result B :=
  match m with
  | Ok a => k a
  | Raise e => Raise e
  end.

Notation "'let*' x ':=' m 'in' k" := (bind m (fun x => k))
  (at level 10, x name, m at level 200, k at level 200).

(** [try: v = m() except Exception: v = d] *)
Definition try_default {A} (m : result A) (d : A) : A :=
  match m with
  | Ok a => a
  | Raise _ => d
  end.

(** ** Python values

    Doubles, and the text forms Python gives them, are kept abstract: the
    module only converts to them, prints them and tests them for zero. *)

Class PyBuiltins : Type := {
  (* IEEE-754 doubles *)
  float : Type;
  (* [bool(x)], that is [x != 0.0] *)
  float_bool : float -> bool;
  (* [str(x)] and [repr(x)] of a double *)
  float_str : float -> string;
  (* [float(n)] of an integer; [None] is OverflowError *)
  float_of_Z : Z -> option float;
  (* [float(s)] of a string; [None] is ValueError *)
  float_of_string : string -> option float;
  (* [repr(s)] of a string *)
  str_repr : string -> string
}.

Section Values.
Context `{PyBuiltins}.

Inductive value : Type :=
| VNone
| VBool (b : bool)
| VInt (z : Z)
| VFloat (f : float)
| VStr (s : string)
| VList (l : list value)
| VDict (d : list (string * value)).

(** A dict keeps its items in insertion order; keys are unique. *)
Local Abbreviation dict := (list (string * value)).

Fixpoint dict_lookup (d : dict) (k : string) : option value :=
  match d with
  | [] => None
  | (k', v) :: t => if bool_decide (k' = k) then Some v else dict_lookup t k
  end.

(** [d.get(k)] *)
Definition dict_get (d : dict) (k : string) : value :=
  default VNone (dict_lookup d k).

(** [d[k] = v]: an existing key keeps its place, a new one goes last. *)
Fixpoint dict_set (d : dict) (k : string) (v : value) : dict :=
  match d with
  | [] => [(k, v)]
  | (k', v') :: t =>
      if bool_decide (k' = k) then (k', v) :: t else (k', v') :: dict_set t k v
  end.

(** [d.values()] *)
Definition dict_values (d : dict) : list value := List.map snd d.

(** [x.get(k)] on any object: only a dict has the method. *)
Definition py_get (x : value) (k : string) : result value :=
  match x with
  | VDict d => Ok (dict_get d k)
  | _ => Raise AttributeError
  end.

(** [bool(x)] *)
Definition py_bool (x : value) : bool :=
  match x with
  | VNone => false
  | VBool b => b
  | VInt z => negb (z =? 0)%Z
  | VFloat f => float_bool f
  | VStr s => negb (bool_decide (s = ""))
  | VList l => negb (bool_decide (l = []))
  | VDict d => negb (bool_decide (d = []))
  end.

(** [a or b] *)
Definition py_or (a b : value) : value := if py_bool a then a else b.

(** [repr(x)] *)
Fixpoint py_repr (x : value) : string :=
  match x with
  | VNone => "None"
  | VBool true => "True"
  | VBool false => "False"
  | VInt z => PyStr.of_Z z
  | VFloat f => float_str f
  | VStr s => str_repr s
  | VList l => "[" +:+ PyStr.join ", " (List.map py_repr l) +:+ "]"
  | VDict d =>
      "{" +:+ PyStr.join ", "
                (List.map (fun '(k, v) => str_repr k +:+ ": " +:+ py_repr v) d)
          +:+ "}"
  end.

(** [str(x)] *)
Definition py_str (x : value) : string :=
  match x with
  | VStr s => s
  | _ => py_repr x
  end.

(** [float(x)] *)
Definition py_float (x : value) : result float :=
  match x with
  | VFloat f => Ok f
  | VInt z => from_option Ok (Raise OverflowError) (float_of_Z z)
  | VBool b => from_option Ok (Raise OverflowError) (float_of_Z (if b then 1 else 0))
  | VStr s => from_option Ok (Raise ValueError) (float_of_string s)
  | _ => Raise TypeError
  end.

(** [x == s] for a string [s]: only an equal string is equal to it. *)
Definition py_eq_str (x : value) (s : string) : bool :=
  match x with
  | VStr t => bool_decide (t = s)
  | _ => false
  end.

(** [s in x] for a string [s]: substring of a string, element of a list,
    key of a dict; anything else is not iterable. *)
Definition py_in (s : string) (x : value) : result bool :=
  match x with
  | VStr h => Ok (PyStr.contains s h)
  | VList l => Ok (existsb (fun y => py_eq_str y s) l)
  | VDict d => Ok (existsb (fun '(k, _) => bool_decide (k = s)) d)
  | _ => Raise TypeError
  end.

(** An optional string argument as a value. *)
Definition opt_str (o : option string) : value := from_option VStr VNone o.

End Values.

Abbreviation dict := (list (string * value)).

(** ** Load filter and ranker *)

(** The query parameters of [find_loads]; each is an optional string. *)
Record criteria : Type := Criteria {
  origin_city : option string;
  origin_state : option string;
  destination_city : option string;
  destination_state : option string;
  pickup_date : option string;
  equipment_type : option string
}.

Definition no_criteria : criteria := Criteria None None None None None None.

(** Sorting: [list.sort(key=...)] is a stable sort by the key. *)
Section Sort.
Context {A K : Type} (key : A -> K) (leb : K -> K -> bool).

Fixpoint insert_by (x : A) (l : list A) : list A :=
  match l with
  | [] => [x]
  | y :: t => if leb (key x) (key y) then x :: l else y :: insert_by x t
  end.

Fixpoint sort_by (l : list A) : list A :=
  match l with
  | [] => []
  | x :: t => insert_by x (sort_by t)
  end.

(** The order induced on the elements by their keys. *)
Definition by_key : relation A := fun x y => leb (key x) (key y) = true.

End Sort.

(** Order of the sort keys: tuples of a bool and a string, compared left to
    right, [False < True], strings by code points. *)
Definition key_leb (a b : bool * string) : bool :=
  if bool_decide (a.1 = b.1) then String.leb a.2 b.2 else negb a.1.

Section Filter.
Context `{PyBuiltins}.

(** [(s or "").strip().lower()] on a string. *)
Definition norm_str (s : string) : string := PyStr.lower (PyStr.strip s).

(** [_norm]: a falsy argument gives the empty string; a truthy one that
    is no string has no [strip] method. *)
Definition _norm (s : value) : result string :=
  match py_or s (VStr "") with
  | VStr t => Ok (norm_str t)
  | _ => Raise AttributeError
  end.

(** The body of the loop of [_filter_loads] up to [if match:], for one
    record [r]; every test is run, also when [match] is already false. *)
Definition record_match (oc os dc ds et : string) (pickup : option string)
    (r : value) : result bool :=
  let* o := py_get r "origin" in
  let* ro := _norm o in
  let* d := py_get r "destination" in
  let* rd := _norm d in
  let m := true in
  let m := if negb (bool_decide (oc = "")) && negb (PyStr.contains oc ro) then false else m in
  let m := if negb (bool_decide (os = "")) && negb (PyStr.contains os ro) then false else m in
  let m := if negb (bool_decide (dc = "")) && negb (PyStr.contains dc rd) then false else m in
  let m := if negb (bool_decide (ds = "")) && negb (PyStr.contains ds rd) then false else m in
  let* m := (if negb (bool_decide (et = "")) then
          let* e := py_get r "equipment_type" in
          let* re := _norm (VStr (py_str e)) in
          Ok (if negb (bool_decide (et = re)) then false else m)
        else Ok m) in
  if py_bool (opt_str pickup) then
    let* p := py_get r "pickup_datetime" in
    let* b := py_in (default "" pickup) (py_or p (VStr "")) in
    Ok (if negb b then false else m)
  else Ok m.

(** [r2 = dict(r)] followed by the guarded rate coercion on the copy. *)
Definition coerce_rate (d : dict) : dict :=
  match py_float (dict_get d "loadboard_rate") with
  | Ok f => dict_set d "loadboard_rate" (VFloat f)
  | Raise _ => d
  end.

(** [dict(r)] *)
Definition py_dict (r : value) : result dict :=
  match r with
  | VDict d => Ok d
  | _ => Raise TypeError
  end.

(** The loop over [LOADS], building [out]. *)
Fixpoint filter_loop (oc os dc ds et : string) (pickup : option string)
    (loads : list value) : result (list dict) :=
  match loads with
  | [] => Ok []
  | r :: rest =>
      let* m := record_match oc os dc ds et pickup r in
      let* r2 := (if m then let* d := py_dict r in Ok [coerce_rate d] else Ok []) in
      let* out := filter_loop oc os dc ds et pickup rest in
      Ok (r2 ++ out)
  end.

(** The key of [out.sort]. *)
Definition sort_key (et : string) (x : dict) : bool * string :=
  (negb (bool_decide (norm_str (py_str (dict_get x "equipment_type")) = et)),
   py_str (py_or (dict_get x "pickup_datetime") (VStr ""))).

(** The ranked list [out] after [out.sort], before the slice. *)
Definition ranked_loads (LOADS : list value) (c : criteria) : result (list dict) :=
  let* oc := _norm (opt_str (origin_city c)) in
  let* os := _norm (opt_str (origin_state c)) in
  let* dc := _norm (opt_str (destination_city c)) in
  let* ds := _norm (opt_str (destination_state c)) in
  let* et := _norm (opt_str (equipment_type c)) in
  let* out := filter_loop oc os dc ds et (pickup_date c) LOADS in
  Ok (sort_by (sort_key et) key_leb out).

Definition _filter_loads (LOADS : list value) (c : criteria) : result (list dict) :=
  let* out := ranked_loads LOADS c in
  Ok (take 3 out).

End Filter.

(** ** Record store *)

Section Store.
Context `{PyBuiltins}.

(** The fallback list of [LOADS]: the two demo records. *)
Definition demo_loads : list value :=
  [ VDict [ ("load_id", VStr "L-1001");
            ("origin", VStr "Chicago, IL");
            ("destination", VStr "Dallas, TX");
            ("pickup_datetime", VStr "2025-09-08T08:00:00-05:00");
            ("delivery_datetime", VStr "2025-09-09T16:00:00-05:00");
            ("equipment_type", VStr "Dry Van");
            ("loadboard_rate", VInt 1450);
            ("notes", VStr "No pallet exchange");
            ("weight", VInt 30000);
            ("commodity_type", VStr "Paper");
            ("num_of_pieces", VInt 20);
            ("miles", VInt 976);
            ("dimensions", VStr "48x102") ];
    VDict [ ("load_id", VStr "L-1002");
            ("origin", VStr "Atlanta, GA");
            ("destination", VStr "Orlando, FL");
            ("pickup_datetime", VStr "2025-09-08T07:00:00-05:00");
            ("delivery_datetime", VStr "2025-09-08T17:00:00-05:00");
            ("equipment_type", VStr "Reefer");
            ("loadboard_rate", VInt 900);
            ("notes", VStr "Keep at 36F");
            ("weight", VInt 25000);
            ("commodity_type", VStr "Produce");
            ("num_of_pieces", VInt 12);
            ("miles", VInt 438);
            ("dimensions", VStr "53x102") ] ].

(** What the loader reads: the file system and the two parsers.  Each
    returns its value or raises ([open]: OSError; [json.load] and
    [csv.DictReader]: ValueError and the like). *)
Record world : Type := World {
  open_file : string -> result string;
  json_load : string -> result value;
  csv_DictReader : string -> result (list value)
}.

Definition _load_file_rows (w : world) (path : string) : result (list value) :=
  if PyStr.endswith (PyStr.lower path) ".json" then
    let* f := open_file w path in
    let* data := json_load w f in
    match data with
    | VList rows => Ok rows
    | _ => Raise (RuntimeError "loads.json must contain a JSON array")
    end
  else if PyStr.endswith (PyStr.lower path) ".csv" then
    let* f := open_file w path in
    csv_DictReader w f
  else Raise (RuntimeError "LOADS_PATH must be .json or .csv").

(** The module-level [try: LOADS = _load_file_rows(LOADS_PATH)
    except Exception: LOADS = [...]]. *)
Definition LOADS (w : world) (LOADS_PATH : string) : list value :=
  try_default (_load_file_rows w LOADS_PATH) demo_loads.

End Store.

(** ** Carrier helpers *)

Section Carrier.
Context `{PyBuiltins}.

(** The inner loop of [choose_carrier]: the first item that is a dict with
    a dict under ["carrier"]. *)
Fixpoint first_carrier (items : list value) : option dict :=
  match items with
  | [] => None
  | VDict d :: rest =>
      match dict_get d "carrier" with
      | VDict c => Some c
      | _ => first_carrier rest
      end
  | _ :: rest => first_carrier rest
  end.

(** The loop over [payload.values()]. *)
Fixpoint scan_values (vs : list value) : option dict :=
  match vs with
  | [] => None
  | VList l :: rest =>
      match first_carrier l with
      | Some c => Some c
      | None => scan_values rest
      end
  | _ :: rest => scan_values rest
  end.

(** [choose_carrier]; [None] is Python's [None]. *)
Definition choose_carrier (payload : value) : option dict :=
  match payload with
  | VDict d =>
      match dict_get d "carrier" with
      | VDict c => Some c
      | _ => scan_values (dict_values d)
      end
  | VList l => first_carrier l
  | _ => None
  end.

(** [s + x] for a string [s]. *)
Definition py_add_str (s : string) (x : value) : result string :=
  match x with
  | VStr t => Ok (s +:+ t)
  | _ => Raise TypeError
  end.

Definition active_reason : string :=
  "Active: allowed to operate and not out of service".

Definition compute_verdict (carrier : dict) : result (bool * string) :=
  let allow := dict_get carrier "allowToOperate" in
  let oos := dict_get carrier "outOfService" in
  let oos_d := dict_get carrier "outOfServiceDate" in
  let reasons : list string := [] in
  let ok := true in
  let ok := if py_eq_str allow "N" then false else ok in
  let reasons := if py_eq_str allow "N" then reasons ++ ["allowToOperate=N"] else reasons in
  let* since := (if py_eq_str oos "Y" then
                   if py_bool oos_d then py_add_str " since " oos_d else Ok ""
                 else Ok "") in
  let ok := if py_eq_str oos "Y" then false else ok in
  let reasons := if py_eq_str oos "Y" then reasons ++ ["outOfService=Y" +:+ since] else reasons in
  Ok (ok,
      if ok then active_reason
      else let joined := PyStr.join "; " reasons in
           if bool_decide (joined = "") then "Not eligible" else joined).

(** The response model [CarrierVerdict]; the three optional fields are
    passed on as the carrier record has them. *)
Record CarrierVerdict : Type := {
  eligible : bool;
  reason : string;
  mc_number : string;
  dot_number : string;
  legal_name : value;
  dba_name : value;
  out_of_service_date : value
}.

(** What a handler does: return a body, raise [HTTPException(status, detail)],
    or fail with another exception. *)
Inductive response (A : Type) : Type :=
| Returns (body : A)
| HTTPException (status : Z) (detail : value)
| Fails (e : exn).
Arguments Returns {A} body.
Arguments HTTPException {A} status detail.
Arguments Fails {A} e.

(** [find_carrier] from the upstream reply on: [status_code] is
    [r.status_code] and [data] is [r.json()]. *)
Definition find_carrier (mc_digits : string) (status_code : Z) (data : value)
    : response CarrierVerdict :=
  if (status_code =? 401)%Z then
    HTTPException 502 (VStr "FMCSA authentication failed (webKey)")
  else if (status_code =? 404)%Z then
    HTTPException 404 (VStr "Carrier not found for MC")
  else if (500 <=? status_code)%Z then
    HTTPException 502 (VStr "FMCSA service error")
  else
    let carrier := choose_carrier data in
    match carrier with
    | Some ((_ :: _) as c) =>
        match compute_verdict c with
        | Ok (ok, reason) =>
            Returns {| eligible := ok; reason := reason;
                       mc_number := py_str (py_or (dict_get c "mcNumber") (VStr mc_digits));
                       dot_number := py_str (py_or (dict_get c "dotNumber") (VStr ""));
                       legal_name := dict_get c "legalName";
                       dba_name := dict_get c "dbaName";
                       out_of_service_date := dict_get c "outOfServiceDate" |}
        | Raise e => Fails e
        end
    | _ =>
        let msg := match data with
                   | VDict d => dict_get d "content"
                   | _ => VStr "Carrier not found or unrecognized response"
                   end in
        HTTPException 404 msg
    end.

End Carrier.

Arguments Returns {_ A} body.
Arguments HTTPException {_ A} status detail.
Arguments Fails {_ A} e.

(** ** Event log entries and the metrics aggregator

    The two logs hold the lines [log_offer] and [call_summary] append: the
    [dict()] of an [OfferLog] or of a [CallSummary], so that [o.get(k)] is
    the field [k] of the model. *)

Section Metrics.
Context `{PyBuiltins}.

Record OfferLog : Type := {
  o_call_id : string;
  o_load_id : string;
  o_mc_number : string;
  carrier_offer : float;
  round : Z;
  broker_offer : option float;
  accepted : option bool
}.

Record CallSummary : Type := {
  s_call_id : string;
  carrier_mc : option string;
  s_load_id : option string;
  final_price : option float;
  outcome : option string;
  sentiment : option string;
  offer_history : option (list float);
  transcript_url : option string
}.

(** [by_call.setdefault(cid, []).append(o)] on a dict in insertion order. *)
Fixpoint setdefault_append (by_call : list (string * list OfferLog))
    (cid : string) (o : OfferLog) : list (string * list OfferLog) :=
  match by_call with
  | [] => [(cid, [o])]
  | (k, v) :: t =>
      if bool_decide (k = cid) then (k, v ++ [o]) :: t
      else (k, v) :: setdefault_append t cid o
  end.

(** The loop [for o in offers], from the [by_call] built so far. *)
Fixpoint group_offers (offers : list OfferLog)
    (by_call : list (string * list OfferLog)) : list (string * list OfferLog) :=
  match offers with
  | [] => by_call
  | o :: rest =>
      let cid := o_call_id o in
      if bool_decide (cid = "") then group_offers rest by_call
      else group_offers rest (setdefault_append by_call cid o)
  end.

(** [x or d] for an optional string [x]. *)
Definition or_str (x : option string) (d : string) : string :=
  match x with
  | Some s => if bool_decide (s = "") then d else s
  | None => d
  end.

(** [Counter(l)]: how often each element occurs. *)
Definition counter_add (c : gmap string nat) (k : string) : gmap string nat :=
  <[k := S (default 0 (c !! k))]> c.

Definition Counter (l : list string) : gmap string nat :=
  foldl counter_add ∅ l.

Record Totals : Type := {
  calls : nat;
  offers_logged : nat;
  avg_rounds : Q;
  total_accepted : nat;
  total_rejected : nat;
  total_not_eligible : nat
}.

Record Metrics : Type := {
  totals : Totals;
  outcomes : gmap string nat;
  sentiments : gmap string nat
}.

(** [sum(rounds)/len(rounds)] is the double nearest to this quotient. *)
Definition mean (rounds : list nat) : Q :=
  match rounds with
  | [] => 0
  | _ => Qmake (Z.of_nat (sum_list rounds)) (Pos.of_nat (length rounds))
  end.

(** [metrics]; each argument is the outcome of reading one log in full:
    the entries, or the exception on the way (a missing file, a bad line). *)
Definition metrics (offers_log : result (list OfferLog))
    (summary_log : result (list CallSummary)) : Metrics :=
  let offers := try_default offers_log [] in
  let summaries := try_default summary_log [] in
  let by_call := group_offers offers [] in
  let rounds := List.map (fun kv => length kv.2) by_call in
  let outcomes := Counter (List.map (fun s => or_str (outcome s) "Other") summaries) in
  let sentiments := Counter (List.map (fun s => or_str (sentiment s) "Neutral") summaries) in
  {| totals :=
       {| calls := size (list_to_set (List.map s_call_id summaries) : gset string);
          offers_logged := length offers;
          avg_rounds := mean rounds;
          total_accepted := default 0%nat (outcomes !! "Accepted");
          total_rejected := default 0%nat (outcomes !! "Rejected");
          total_not_eligible := default 0%nat (outcomes !! "Not Eligible") |};
     outcomes := outcomes;
     sentiments := sentiments |}.

End Metrics.

(** ** The load filter over a heap of objects

    [LOADS] is a list object whose items refer to the record objects; a
    record object can be updated in place ([r2[k] = v]), a list object too
    ([out.append], [out.sort]).  This is the level at which [_filter_loads]
    could change the store. *)

(** A location is an index into the heap, the list of the objects there are. *)
Abbreviation loc := nat.

Section Heap.
Context `{PyBuiltins}.

Inductive object : Type :=
| OList (items : list loc)
| ORecord (v : value).

(** Computations on the heap that may raise. *)
Definition M (A : Type) : Type := list object -> result A * list object.

Definition ret {A} (a : A) : M A := fun h => (Ok a, h).

Definition seq_heap {A B} (m : M A) (k : A -> M B) : M B := fun h =>
  match m h with
  | (Ok a, h') => k a h'
  | (Raise e, h') => (Raise e, h')
  end.

Notation "'let!' x ':=' m 'in' k" := (seq_heap m (fun x => k))
  (at level 10, x name, m at level 200, k at level 200).

Definition lift {A} (r : result A) : M A := fun h => (r, h).

(** A new object, at the next free location. *)
Definition alloc (o : object) : M loc := fun h => (Ok (length h), h ++ [o]).

Definition load_list (l : loc) : M (list loc) := fun h =>
  match h !! l with
  | Some (OList items) => (Ok items, h)
  | _ => (Raise SystemError, h)
  end.

Definition load_value (l : loc) : M value := fun h =>
  match h !! l with
  | Some (ORecord v) => (Ok v, h)
  | _ => (Raise SystemError, h)
  end.

Definition store (l : loc) (o : object) : M unit := fun h => (Ok (), <[l := o]> h).

(** [r2 = dict(r)], then [try: r2["loadboard_rate"] =
    float(r2.get("loadboard_rate")) except Exception: pass]. *)
Definition copy_record (r : value) : M loc :=
  let! d := lift (py_dict r) in
  let! r2 := alloc (ORecord (VDict d)) in
  let! cur := load_value r2 in
  let! _ := (match (let* g := py_get cur "loadboard_rate" in py_float g), cur with
             | Ok f, VDict d2 =>
                 store r2 (ORecord (VDict (dict_set d2 "loadboard_rate" (VFloat f))))
             | _, _ => ret ()
             end) in
  ret r2.

(** [out.append(r2)] *)
Definition list_append (out r2 : loc) : M unit :=
  let! items := load_list out in
  store out (OList (items ++ [r2])).

(** The loop [for r in LOADS], over the items of the list. *)
Fixpoint filter_loop_heap (oc os dc ds et : string) (pickup : option string)
    (out : loc) (rs : list loc) : M unit :=
  match rs with
  | [] => ret ()
  | r :: rest =>
      let! v := load_value r in
      let! m := lift (record_match oc os dc ds et pickup v) in
      let! _ := (if m then let! r2 := copy_record v in list_append out r2
                 else ret ()) in
      filter_loop_heap oc os dc ds et pickup out rest
  end.

(** The keys of [out.sort], computed for every item before the sort. *)
Fixpoint keyed_items (et : string) (items : list loc) : M (list ((bool * string) * loc)) :=
  match items with
  | [] => ret []
  | x :: rest =>
      let! v := load_value x in
      let! d := lift (py_dict v) in
      let! tl := keyed_items et rest in
      ret ((sort_key et d, x) :: tl)
  end.

(** [out.sort(key=...)], in place. *)
Definition list_sort (et : string) (out : loc) : M unit :=
  let! items := load_list out in
  let! keyed := keyed_items et items in
  store out (OList (List.map snd (sort_by fst key_leb keyed))).

(** [_filter_loads] on the heap; the result is the location of [out[:3]]. *)
Definition _filter_loads_heap (LOADS : loc) (c : criteria) : M loc :=
  let! oc := lift (_norm (opt_str (origin_city c))) in
  let! os := lift (_norm (opt_str (origin_state c))) in
  let! dc := lift (_norm (opt_str (destination_city c))) in
  let! ds := lift (_norm (opt_str (destination_state c))) in
  let! et := lift (_norm (opt_str (equipment_type c))) in
  let! out := alloc (OList []) in
  let! rs := load_list LOADS in
  let! _ := filter_loop_heap oc os dc ds et (pickup_date c) out rs in
  let! _ := list_sort et out in
  let! items := load_list out in
  alloc (OList (take 3 items)).

(** The record objects holding the given mappings. *)
Definition records (ds : list dict) : list object :=
  (fun d => ORecord (VDict d)) <$> ds.

(** A computation leaves the first [n] objects of the heap as they are, and
    frees none. *)
Definition keeps {A : Type} (n : nat) (m : M A) : Prop :=
  forall h, n <= length h -> take n (m h).2 = take n h /\ n <= length (m h).2.

End Heap.

(** ** Notions used to state the properties *)

Section Notions.
Context `{PyBuiltins}.

(** A field that [_norm] and [in] take: a string, or a falsy value (which
    [or ""] replaces by the empty string). *)
Definition str_or_falsy (v : value) : bool :=
  match v with
  | VStr _ => true
  | _ => negb (py_bool v)
  end.

(** A record of the store as the filter expects it: a mapping whose origin,
    destination and pickup timestamp are strings, null or missing. *)
Definition record_ok (r : value) : bool :=
  match r with
  | VDict d =>
      str_or_falsy (dict_get d "origin")
      && str_or_falsy (dict_get d "destination")
      && str_or_falsy (dict_get d "pickup_datetime")
  | _ => false
  end.

Definition store_ok (store : list value) : bool := forallb record_ok store.

(** The mappings of a store. *)
Definition dicts_of (store : list value) : list dict :=
  omap (fun r => match r with VDict d => Some d | _ => None end) store.

(** The text of a field: [str(d.get(k) or "")]. *)
Definition field_str (d : dict) (k : string) : string :=
  py_str (py_or (dict_get d k) (VStr "")).

(** A criterion after [_norm]; the empty string stands for an absent one. *)
Definition given (c : option string) : string := norm_str (default "" c).

(** The rules of the fields.  Substring, both sides normalised: *)
Definition sub_rule (c : option string) (field : string) : bool :=
  bool_decide (given c = "") || PyStr.contains (given c) (norm_str field).

(** equality, both sides normalised: *)
Definition eq_rule (c : option string) (field : string) : bool :=
  bool_decide (given c = "") || bool_decide (given c = norm_str field).

(** substring, both sides as they are: *)
Definition raw_sub_rule (c : option string) (field : string) : bool :=
  match c with
  | Some p => bool_decide (p = "") || PyStr.contains p field
  | None => true
  end.


(** When a record matches the criteria, as [_filter_loads] decides it. *)
Definition matches (c : criteria) (d : dict) : bool :=
  sub_rule (origin_city c) (field_str d "origin")
  && sub_rule (origin_state c) (field_str d "origin")
  && sub_rule (destination_city c) (field_str d "destination")
  && sub_rule (destination_state c) (field_str d "destination")
  && eq_rule (equipment_type c) (py_str (dict_get d "equipment_type"))
  && raw_sub_rule (pickup_date c) (field_str d "pickup_datetime").


(** The two parts of the sort key of a returned record. *)
Definition equipment_mismatch (c : criteria) (x : dict) : bool :=
  (sort_key (given (equipment_type c)) x).1.

Definition pickup_string (x : dict) : string :=
  py_str (py_or (dict_get x "pickup_datetime") (VStr "")).

(** The order of the ranking. *)
Definition rank_le (c : criteria) : relation dict :=
  by_key (sort_key (given (equipment_type c))) key_leb.

(** The carrier object of one place of a payload, if it has one. *)
Definition carrier_of (item : value) : option dict :=
  match item with
  | VDict d =>
      match dict_get d "carrier" with
      | VDict c => Some c
      | _ => None
      end
  | _ => None
  end.

Definition items_of (v : value) : list value :=
  match v with
  | VList l => l
  | _ => []
  end.

(** The places of a payload where a carrier object is looked for, in the
    order of the search: the payload itself and then the items of its
    list-valued fields when it is a mapping, its items when it is a list. *)
Definition places (payload : value) : list value :=
  match payload with
  | VDict d => payload :: concat (List.map items_of (dict_values d))
  | VList l => l
  | _ => []
  end.

(** The first result that [f] gives along a list. *)
Fixpoint first_some {A B : Type} (f : A -> option B) (l : list A) : option B :=
  match l with
  | [] => None
  | x :: t =>
      match f x with
      | Some b => Some b
      | None => first_some f t
      end
  end.

(** The date of a carrier record is a string, null or missing. *)
Definition date_ok (carrier : dict) : bool :=
  str_or_falsy (dict_get carrier "outOfServiceDate").

(** The text that follows "outOfService=Y" for a date of that shape. *)
Definition since_text (date : value) : string :=
  match date with
  | VStr d => if bool_decide (d = "") then "" else " since " +:+ d
  | _ => ""
  end.

(** The verdict by cases: is the carrier barred from operating, is it out
    of service. *)
Definition verdict_of (barred out_of_service : bool) (since : string) : bool * string :=
  match barred, out_of_service with
  | false, false => (true, active_reason)
  | true, false => (false, "allowToOperate=N")
  | false, true => (false, "outOfService=Y" +:+ since)
  | true, true => (false, "allowToOperate=N" +:+ "; " +:+ "outOfService=Y" +:+ since)
  end.

(** The offers that take part in the grouping, and the calls they form. *)
Definition grouped_offers (offers : list OfferLog) : list OfferLog :=
  List.filter (fun o => negb (bool_decide (o_call_id o = ""))) offers.

Definition call_ids (offers : list OfferLog) : list string :=
  remove_dups (List.map o_call_id (grouped_offers offers)).

(** The round counts of the calls: [[len(v) for v in by_call.values()]]. *)
Definition rounds_of (offers : list OfferLog) : list nat :=
  List.map (fun kv => length kv.2) (group_offers offers []).



(** How many entries of a list satisfy a test. *)
Definition count_where {A : Type} (p : A -> bool) (l : list A) : nat :=
  length (List.filter p l).

End Notions.

(** ** Statements of the specification, as propositions *)

Section Statements.
Context `{PyBuiltins}.


(** "filter returns a sequence of at most three records, never an error". *)
Definition returns_at_most_three (store : list value) (c : criteria) : Prop :=
  exists res, _filter_loads store c = Ok res /\ length res <= 3.

(** "evaluate is total". *)
Definition verdict_defined (carrier : dict) : Prop :=
  exists v, compute_verdict carrier = Ok v.

End Statements.

(** ** The endpoints around the core *)

Section Endpoints.
Context `{PyBuiltins}.



(** The body of [find_loads]: [{"items": rows, "count": len(rows)}]. *)
Record LoadsPage : Type := {
  items : list dict;
  count : nat
}.

Definition find_loads (LOADS : list value) (c : criteria) : result LoadsPage :=
  let* rows := _filter_loads LOADS c in
  Ok {| items := rows; count := length rows |}.

(** [\d] on one code point below 256. *)
Definition is_digit (c : ascii) : bool :=
  let n := nat_of_ascii c in ((48 <=? n) && (n <=? 57))%nat.

Definition newline : ascii := ascii_of_nat 10.

(** The text before a final newline, which [$] lets pass. *)
Fixpoint before_final_newline (s : string) : string :=
  match s with
  | EmptyString => EmptyString
  | String c EmptyString => if bool_decide (c = newline) then EmptyString else s
  | String c t => String c (before_final_newline t)
  end.

Fixpoint all_digits (s : string) : bool :=
  match s with
  | EmptyString => true
  | String c t => is_digit c && all_digits t
  end.

(** [MC_RE.match(s)] for [MC_RE = re.compile(r"^\d{4,7}$")]. *)
Definition MC_RE_match (s : string) : bool :=
  let body := before_final_newline s in
  all_digits body && (4 <=? String.length body)%nat && (String.length body <=? 7)%nat.

(** The reply of the carrier service: its status and, when the body is
    JSON, what [r.json()] gives. *)
Record reply : Type := Reply {
  status_code : Z;
  json : result value
}.

(** [find_carrier] in full.  [get url] is the request to the carrier
    service; it returns the reply or raises (no connection, timeout). *)
Definition find_carrier_endpoint (FMCSA_WEBKEY FMCSA_BASE : string)
    (get : string -> result reply) (mc : string) : response CarrierVerdict :=
  if bool_decide (FMCSA_WEBKEY = "") then
    HTTPException 500 (VStr "Server missing FMCSA_WEBKEY")
  else
    let mc_digits := PyStr.strip mc in
    if negb (MC_RE_match mc_digits) then
      HTTPException 400 (VStr "Invalid MC number format")
    else
      let url := FMCSA_BASE +:+ "/carriers/docket-number/" +:+ mc_digits in
      match get url with
      | Raise e => Fails e
      | Ok r =>
          if (status_code r =? 401)%Z then
            HTTPException 502 (VStr "FMCSA authentication failed (webKey)")
          else if (status_code r =? 404)%Z then
            HTTPException 404 (VStr "Carrier not found for MC")
          else if (500 <=? status_code r)%Z then
            HTTPException 502 (VStr "FMCSA service error")
          else
            match json r with
            | Raise e => Fails e
            | Ok data =>
                let carrier := choose_carrier data in
                match carrier with
                | Some ((_ :: _) as c) =>
                    match compute_verdict c with
                    | Ok (ok, why) =>
                        Returns
                          {| eligible := ok; reason := why;
                             mc_number := py_str (py_or (dict_get c "mcNumber") (VStr mc_digits));
                             dot_number := py_str (py_or (dict_get c "dotNumber") (VStr ""));
                             legal_name := dict_get c "legalName";
                             dba_name := dict_get c "dbaName";
                             out_of_service_date := dict_get c "outOfServiceDate" |}
                    | Raise e => Fails e
                    end
                | _ =>
                    let msg := match data with
                               | VDict d => dict_get d "content"
                               | _ => VStr "Carrier not found or unrecognized response"
                               end in
                    HTTPException 404 msg
                end
            end
      end.

(** [[json.loads(x) for x in f if x.strip()]]: the lines of a log, one
    entry per line that is not blank; [parse] is [json.loads] on a line. *)
Fixpoint parse_lines {A : Type} (parse : string -> result A)
    (lines : list string) : result (list A) :=
  match lines with
  | [] => Ok []
  | x :: rest =>
      if bool_decide (PyStr.strip x = "") then parse_lines parse rest
      else
        let* a := parse x in
        let* tl := parse_lines parse rest in
        Ok (a :: tl)
  end.

(** [metrics] on the two files: each is the list of its lines, or the
    exception [open] raises. *)
Definition metrics_of_files
    (parse_offer : string -> result OfferLog)
    (parse_summary : string -> result CallSummary)
    (offers_file summary_file : result (list string)) : Metrics :=
  metrics (let* lines := offers_file in parse_lines parse_offer lines)
          (let* lines := summary_file in parse_lines parse_summary lines).

(** [log_offer] on the lines of the offers log: one more line, the compact
    JSON of the body ([dumps]) and a newline. *)
Definition log_offer (dumps : OfferLog -> string) (body : OfferLog)
    (lines : list string) : list string :=
  lines ++ [dumps body +:+ String newline ""].


End Endpoints.

(** ** Further notions *)

(** A string that does not begin with white space. *)
Definition starts_clean (s : string) : bool :=
  match s with
  | EmptyString => true
  | String c _ => negb (PyStr.isspace c)
  end.

Section MoreNotions.
Context `{PyBuiltins}.

(** A pickup timestamp that [in] takes: a string, a list, a mapping, or a
    falsy value. *)
Definition iterable_or_falsy (v : value) : bool :=
  match v with
  | VStr _ | VList _ | VDict _ => true
  | _ => negb (py_bool v)
  end.

(** The records on which the loop body of [_filter_loads] does not raise,
    given the pickup date asked for. *)
Definition record_accepted (pickup : option string) (r : value) : bool :=
  match r with
  | VDict d =>
      str_or_falsy (dict_get d "origin")
      && str_or_falsy (dict_get d "destination")
      && (negb (py_bool (opt_str pickup))
          || iterable_or_falsy (dict_get d "pickup_datetime"))
  | _ => false
  end.

(** [c'] asks for no more than [c]: each of its criteria is absent or the
    one of [c]. *)
Definition asks_less (c' c : criteria) : Prop :=
  (origin_city c' = None \/ origin_city c' = origin_city c)
  /\ (origin_state c' = None \/ origin_state c' = origin_state c)
  /\ (destination_city c' = None \/ destination_city c' = destination_city c)
  /\ (destination_state c' = None \/ destination_state c' = destination_state c)
  /\ (pickup_date c' = None \/ pickup_date c' = pickup_date c)
  /\ (equipment_type c' = None \/ equipment_type c' = equipment_type c).

(** The carrier records on which [compute_verdict] raises: out of service,
    with a date that is truthy and no string. *)
Definition date_breaks (carrier : dict) : bool :=
  py_eq_str (dict_get carrier "outOfService") "Y"
  && py_bool (dict_get carrier "outOfServiceDate")
  && negb (match dict_get carrier "outOfServiceDate" with
           | VStr _ => true
           | _ => false
           end).

(** The address [find_carrier] requests for a docket number. *)
Definition docket_url (FMCSA_BASE mc_digits : string) : string :=
  FMCSA_BASE +:+ "/carriers/docket-number/" +:+ mc_digits.

End MoreNotions.

(** ** A reading of the builtins on which the model runs

    A double with an integral value is given by that value: [float(n)] is
    [n] and [float(s)] reads a decimal integer.  This is exact for the
    integers below 2^53 and the numerals the examples use; other numbers do
    not occur in them. *)

Definition small_floats : PyBuiltins := {|
  float := Z;
  float_bool z := negb (z =? 0)%Z;
  float_str z := PyStr.of_Z z +:+ ".0";
  float_of_Z z := Some z;
  float_of_string s := option_map Z.of_int (NilZero.int_of_string s);
  str_repr s := "'" +:+ s +:+ "'"
|}.

Module Examples.

#[local] Existing Instance small_floats.


(** Only the pickup date is asked for, and it is a space. *)
Definition by_blank_date : criteria :=
  Criteria None None None None (Some " ") None.

(** Four loads that differ in their pickup time. *)
Definition load_at (t : string) : dict :=
  [("origin", VStr "Chicago, IL"); ("pickup_datetime", VStr t)].

Definition four_loads : list value :=
  VDict <$> [load_at "1"; load_at "2"; load_at "3"; load_at "4"].

(** A record whose origin is a number. *)
Definition numeric_origin : list value := [VDict [("origin", VInt 5)]].

Definition from_chicago : criteria :=
  Criteria (Some "chicago") None None None None None.

Definition dry_van : criteria :=
  Criteria None None None None None (Some "Dry Van").

(** A carrier record out of service, its date given as a number. *)
Definition numeric_date : dict :=
  [("outOfService", VStr "Y"); ("outOfServiceDate", VInt 20240101)].

(** The carrier record of the specification's example. *)
Definition barred : dict :=
  [("allowToOperate", VStr "N"); ("outOfService", VStr "Y");
   ("outOfServiceDate", VStr "2024-01-01")].

(** The ranking of the demo store when nothing is asked for. *)
Definition demo_ranked : list dict :=
  try_default (_filter_loads demo_loads no_criteria) [].

(** The loads A and B of the scenario of the specification. *)
Definition load_A : dict :=
  [("equipment_type", VStr "Dry Van"); ("pickup_datetime", VStr "2025-09-08T08:00:00")].

Definition load_B : dict :=
  [("equipment_type", VStr "Reefer"); ("pickup_datetime", VStr "2025-09-08T07:00:00")].

Definition scenario : list value := [VDict load_A; VDict load_B].

(** A machine without the data file. *)
Definition no_files : world :=
  {| open_file := fun _ => Raise OSError;
     json_load := fun _ => Raise ValueError;
     csv_DictReader := fun _ => Raise ValueError |}.

(** A machine whose data file holds a JSON object. *)
Definition object_file : world :=
  {| open_file := fun _ => Ok "{}";
     json_load := fun _ => Ok (VDict []);
     csv_DictReader := fun _ => Raise ValueError |}.

(** A reply of the carrier service, and one without a carrier. *)
Definition fmcsa_reply : value :=
  VDict [("content", VList [VDict [("carrier", VDict barred)]]);
         ("retrievalDate", VStr "2025-09-08")].

Definition fmcsa_empty : value := VDict [("content", VList [])].

(** The scenario in the heap: the two records, then the list [LOADS]. *)
Definition scenario_heap : list object :=
  [ORecord (VDict load_A); ORecord (VDict load_B); OList [0; 1]].

(** A summary with neither outcome nor sentiment, and three offers of two
    calls. *)
Definition lone_summary : CallSummary :=
  {| s_call_id := "call-1"; carrier_mc := None; s_load_id := None;
     final_price := None; outcome := None; sentiment := None;
     offer_history := None; transcript_url := None |}.

Definition offer_in (cid : string) (n : Z) : OfferLog :=
  {| o_call_id := cid; o_load_id := "L-1001"; o_mc_number := "123456";
     carrier_offer := 1500%Z; round := n; broker_offer := None;
     accepted := None |}.


(** The page [find_loads] answers in the scenario when a dry van is asked
    for. *)
Definition dry_van_page : LoadsPage := {| items := [load_A]; count := 1 |}.

(** The dry van again, in other letters and with spaces around. *)
Definition dry_van_shouted : criteria :=
  Criteria None None None None None (Some "  DRY van ").

(** A load with a rate, given as an integer. *)
Definition rated : dict := [("load_id", VStr "L-1"); ("loadboard_rate", VInt 900)].

(** A machine whose data file holds an empty array. *)
Definition empty_array_file : world :=
  {| open_file := fun _ => Ok "[]";
     json_load := fun _ => Ok (VList []);
     csv_DictReader := fun _ => Raise ValueError |}.

(** A carrier service that cannot be reached, and one that answers with the
    reply above. *)
Definition no_service : string -> result reply := fun _ => Raise OSError.

Definition service : string -> result reply :=
  fun _ => Ok (Reply 200 (Ok fmcsa_reply)).

Definition barred_verdict : CarrierVerdict :=
  {| eligible := false;
     reason := "allowToOperate=N; outOfService=Y since 2024-01-01";
     mc_number := "123456";
     dot_number := "";
     legal_name := VNone;
     dba_name := VNone;
     out_of_service_date := VStr "2024-01-01" |}.

(** Log lines: every line is the first offer of call 1, or the lone
    summary, but for the line "bad", which is no JSON. *)
Definition parse_offer_line (x : string) : result OfferLog :=
  if bool_decide (x = "bad") then Raise ValueError else Ok (offer_in "call-1" 1).

Definition parse_summary_line (x : string) : result CallSummary :=
  if bool_decide (x = "bad") then Raise ValueError else Ok lone_summary.



End Examples.
(** ** Facts about strings *)

Module PyStrFacts.
Import PyStr.

Lemma lstrip_blank s : blank s = true -> lstrip s = "".
Proof.
  induction s as [|c s IH]; simpl; [done|].
  intros [Hc Hs]%andb_true_iff. rewrite Hc. auto.
Qed.

Lemma strip_blank s : blank s = true -> strip s = "".
Proof. intros Hs. unfold strip. by rewrite (lstrip_blank s Hs). Qed.

Lemma contains_empty h : contains "" h = true.
Proof. by destruct h. Qed.

Lemma app_cons c p s : String c p +:+ s = String c (p +:+ s).
Proof. reflexivity. Qed.

Lemma prefix_app p s : String.prefix p (p +:+ s) = true.
Proof.
  induction p as [|c p IH].
  - change ("" +:+ s) with s. by destruct s.
  - rewrite app_cons. simpl. destruct (ascii_dec c c); [done|congruence].
Qed.

Lemma prefix_split p s : String.prefix p s = true -> exists t, s = p +:+ t.
Proof.
  revert s. induction p as [|c p IH]; intros s Hp.
  - by exists s.
  - destruct s as [|c' s]; [done|]. simpl in Hp.
    destruct (ascii_dec c c') as [->|]; [|done].
    destruct (IH s Hp) as [t ->]. by exists t.
Qed.

Lemma app_empty_r s : s +:+ "" = s.
Proof. induction s as [|c s IH]; [done|]. by rewrite app_cons, IH. Qed.

Lemma contains_unfold n h :
  contains n h = String.prefix n h
                 || match h with "" => false | String _ t => contains n t end.
Proof. by destruct h. Qed.

(** [contains] is the substring relation. *)
Lemma contains_spec n h :
  contains n h = true <-> exists pre suf, h = pre +:+ n +:+ suf.
Proof.
  split.
  - induction h as [|c h IH]; rewrite contains_unfold.
    + rewrite orb_false_r. intros [t Ht]%prefix_split. by exists "", t.
    + intros [Hp|Hc]%orb_true_iff.
      * apply prefix_split in Hp as [t Ht]. by exists "", t.
      * destruct (IH Hc) as (pre & suf & ->). by exists (String c pre), suf.
  - intros (pre & suf & ->). induction pre as [|c pre IH].
    + change ("" +:+ n +:+ suf) with (n +:+ suf).
      by rewrite contains_unfold, prefix_app.
    + rewrite app_cons, contains_unfold, IH. apply orb_true_r.
Qed.

End PyStrFacts.

(** ** Facts about the stable sort *)

Section SortFacts.
Context {A K : Type} (key : A -> K) (leb : K -> K -> bool).
Hypothesis leb_total : forall a b, leb a b = true \/ leb b a = true.
Hypothesis leb_trans :
  forall a b c, leb a b = true -> leb b c = true -> leb a c = true.

Lemma insert_by_perm x l : insert_by key leb x l ≡ₚ x :: l.
Proof.
  induction l as [|y t IH]; simpl; [done|].
  destruct (leb (key x) (key y)); [done|].
  rewrite IH. apply Permutation_swap.
Qed.

Lemma sort_by_perm l : sort_by key leb l ≡ₚ l.
Proof.
  induction l as [|x t IH]; simpl; [done|].
  by rewrite insert_by_perm, IH.
Qed.

Lemma insert_by_sorted x l :
  StronglySorted (by_key key leb) l -> StronglySorted (by_key key leb) (insert_by key leb x l).
Proof.
  induction 1 as [|y t Ht IH Hy]; simpl.
  - repeat constructor.
  - destruct (leb (key x) (key y)) eqn:Hxy.
    + constructor; [by constructor|].
      constructor; [done|].
      eapply Forall_impl; [exact Hy|]. intros z Hz.
      unfold by_key in *. eauto.
    + constructor; [done|].
      rewrite insert_by_perm. constructor; [|done].
      unfold by_key. destruct (leb_total (key x) (key y)); congruence.
Qed.

(** The sort is stable: elements with one and the same key stay in the
    order they had. *)
Lemma insert_by_stable `{EqDecision K} (k : K) x l :
  (forall a, leb a a = true) ->
  List.filter (fun y => bool_decide (key y = k)) (insert_by key leb x l)
  = List.filter (fun y => bool_decide (key y = k)) (x :: l).
Proof.
  intros Hrefl. induction l as [|y t IH]; [done|].
  cbn [insert_by]. destruct (leb (key x) (key y)) eqn:Hxy; [done|].
  assert (Hne : key x <> key y).
  { intros Heq. rewrite Heq, Hrefl in Hxy. discriminate. }
  cbn [List.filter] in *. rewrite IH.
  destruct (bool_decide (key x = k)) eqn:Hx, (bool_decide (key y = k)) eqn:Hy;
    try done.
  apply bool_decide_eq_true in Hx, Hy. congruence.
Qed.

Lemma sort_by_stable `{EqDecision K} (k : K) l :
  (forall a, leb a a = true) ->
  List.filter (fun y => bool_decide (key y = k)) (sort_by key leb l)
  = List.filter (fun y => bool_decide (key y = k)) l.
Proof.
  intros Hrefl. induction l as [|x t IH]; [done|].
  cbn [sort_by]. rewrite insert_by_stable by done.
  cbn [List.filter]. by rewrite IH.
Qed.

Lemma sort_by_sorted l : StronglySorted (by_key key leb) (sort_by key leb l).
Proof.
  induction l as [|x t IH]; simpl; [constructor|].
  by apply insert_by_sorted.
Qed.

Lemma sorted_take n l :
  StronglySorted (by_key key leb) l -> StronglySorted (by_key key leb) (take n l).
Proof.
  intros Hl. rewrite <- (take_drop n l) in Hl.
  by apply StronglySorted_app_1_l in Hl.
Qed.


End SortFacts.

(** ** The order of the sort keys *)

Lemma key_leb_total a b : key_leb a b = true \/ key_leb b a = true.
Proof.
  destruct a as [[] s], b as [[] t]; unfold key_leb; simpl; auto;
    destruct (String.leb_total s t); auto.
Qed.

Lemma string_leb_trans s t u :
  String.leb s t = true -> String.leb t u = true -> String.leb s u = true.
Proof.
  intros Hst Htu. apply Is_true_true.
  change (String.le s u). transitivity t; apply Is_true_true; assumption.
Qed.

Lemma key_leb_trans a b c :
  key_leb a b = true -> key_leb b c = true -> key_leb a c = true.
Proof.
  destruct a as [[] s], b as [[] t], c as [[] u]; unfold key_leb; simpl;
    try done; apply string_leb_trans.
Qed.

(** ** The load filter *)

Section FilterFacts.
Context `{PyBuiltins}.

Lemma norm_VStr s : _norm (VStr s) = Ok (norm_str s).
Proof.
  unfold _norm, py_or. simpl. case_bool_decide; simpl; [by subst|done].
Qed.

Lemma norm_opt c : _norm (opt_str c) = Ok (given c).
Proof. destruct c as [s|]; [apply norm_VStr|done]. Qed.

Lemma or_empty_falsy v :
  str_or_falsy v = true ->
  exists s, py_or v (VStr "") = VStr s.
Proof.
  unfold py_or. destruct v; simpl; intros Hv;
    try (apply negb_true_iff in Hv; rewrite Hv); eauto.
  destruct (negb _); eauto.
Qed.

Lemma norm_field v :
  str_or_falsy v = true ->
  _norm v = Ok (norm_str (py_str (py_or v (VStr "")))).
Proof.
  intros [s Hs]%or_empty_falsy. unfold _norm. by rewrite Hs.
Qed.

Lemma in_field p v :
  str_or_falsy v = true ->
  py_in p (py_or v (VStr "")) = Ok (PyStr.contains p (py_str (py_or v (VStr "")))).
Proof. intros [s Hs]%or_empty_falsy. by rewrite Hs. Qed.

Lemma given_blank s : PyStr.blank s = true -> given (Some s) = "".
Proof.
  intros Hs. unfold given, norm_str. simpl.
  by rewrite (PyStrFacts.strip_blank s Hs).
Qed.

(** On a record of the expected shape the loop body decides [matches]. *)
Lemma record_match_ok c d :
  record_ok (VDict d) = true ->
  record_match (given (origin_city c)) (given (origin_state c))
    (given (destination_city c)) (given (destination_state c))
    (given (equipment_type c)) (pickup_date c) (VDict d)
  = Ok (matches c d).
Proof.
  simpl. intros [[Ho Hd]%andb_true_iff Hp]%andb_true_iff.
  unfold record_match, matches, field_str. simpl.
  rewrite (norm_field _ Ho), (norm_field _ Hd). simpl.
  unfold sub_rule, eq_rule, raw_sub_rule.
  set (ro := norm_str (py_str (py_or (dict_get d "origin") (VStr "")))).
  set (rd := norm_str (py_str (py_or (dict_get d "destination") (VStr "")))).
  destruct (bool_decide (given (origin_city c) = ""));
  destruct (bool_decide (given (origin_state c) = ""));
  destruct (bool_decide (given (destination_city c) = ""));
  destruct (bool_decide (given (destination_state c) = ""));
  destruct (PyStr.contains (given (origin_city c)) ro);
  destruct (PyStr.contains (given (origin_state c)) ro);
  destruct (PyStr.contains (given (destination_city c)) rd);
  destruct (PyStr.contains (given (destination_state c)) rd);
  simpl;
  (destruct (bool_decide (given (equipment_type c) = "")); simpl;
   [|rewrite norm_VStr; simpl;
     destruct (bool_decide (given (equipment_type c)
                            = norm_str (py_str (dict_get d "equipment_type"))));
     simpl]);
  (destruct (pickup_date c) as [p|]; simpl; [|done];
   destruct (bool_decide (p = "")); simpl; [done|];
   rewrite (in_field p _ Hp); simpl;
   by destruct (PyStr.contains p _)).
Qed.

Lemma filter_loop_ok c store :
  store_ok store = true ->
  filter_loop (given (origin_city c)) (given (origin_state c))
    (given (destination_city c)) (given (destination_state c))
    (given (equipment_type c)) (pickup_date c) store
  = Ok (List.map coerce_rate (List.filter (matches c) (dicts_of store))).
Proof.
  induction store as [|r rest IH]; [done|].
  simpl. intros [Hr Hrest]%andb_true_iff.
  destruct r as [| | | | | |d]; try done.
  rewrite (record_match_ok c d Hr). simpl.
  rewrite (IH Hrest). simpl.
  by destruct (matches c d).
Qed.

Lemma ranked_loads_unfold store c :
  ranked_loads store c =
  let* out := filter_loop (given (origin_city c)) (given (origin_state c))
                (given (destination_city c)) (given (destination_state c))
                (given (equipment_type c)) (pickup_date c) store in
  Ok (sort_by (sort_key (given (equipment_type c))) key_leb out).
Proof. unfold ranked_loads. by rewrite !norm_opt. Qed.

Lemma ranked_loads_ok c store :
  store_ok store = true ->
  ranked_loads store c
  = Ok (sort_by (sort_key (given (equipment_type c))) key_leb
          (List.map coerce_rate (List.filter (matches c) (dicts_of store)))).
Proof.
  intros Hs. by rewrite ranked_loads_unfold, (filter_loop_ok c store Hs).
Qed.

Lemma ranked_loads_sorted store c out :
  ranked_loads store c = Ok out -> StronglySorted (rank_le c) out.
Proof.
  rewrite ranked_loads_unfold. destruct (filter_loop _ _ _ _ _ _ _); [|done].
  simpl. intros [= <-]. apply sort_by_sorted.
  - apply key_leb_total.
  - apply key_leb_trans.
Qed.

Lemma dict_lookup_set_ne (d : dict) k k' v :
  k <> k' -> dict_lookup (dict_set d k' v) k = dict_lookup d k.
Proof.
  intros Hk. induction d as [|[k0 v0] t IH]; simpl.
  - by rewrite bool_decide_eq_false_2.
  - destruct (bool_decide (k0 = k')) eqn:Hk0; simpl.
    + apply bool_decide_eq_true in Hk0 as ->.
      by rewrite !bool_decide_eq_false_2.
    + by rewrite IH.
Qed.

Lemma dict_get_coerce_rate d k :
  k <> "loadboard_rate" -> dict_get (coerce_rate d) k = dict_get d k.
Proof.
  intros Hk. unfold coerce_rate, dict_get.
  destruct (py_float _); [|done]. by rewrite dict_lookup_set_ne.
Qed.


Lemma sort_key_coerce_rate et d : sort_key et (coerce_rate d) = sort_key et d.
Proof. unfold sort_key. by rewrite !dict_get_coerce_rate. Qed.


Lemma filter_loads_inv store c res :
  _filter_loads store c = Ok res ->
  exists out, ranked_loads store c = Ok out /\ res = take 3 out.
Proof.
  unfold _filter_loads. destruct (ranked_loads store c) as [out|]; [|done].
  simpl. intros [= <-]. eauto.
Qed.

End FilterFacts.

Section FilterClaims.
Context `{PyBuiltins}.



(** C3 (as amended).  On a store whose records have the expected shape,
    [_filter_loads] returns the first three of the matching records in
    ranked order: at most three records, and the empty list when no record
    matches. *)
Theorem filter_top_three (store : list value) (c : criteria) :
  store_ok store = true ->
  _filter_loads store c
  = Ok (take 3 (sort_by (sort_key (given (equipment_type c))) key_leb
                  (List.map coerce_rate (List.filter (matches c) (dicts_of store)))))
  /\ returns_at_most_three store c
  /\ (List.filter (matches c) (dicts_of store) = [] -> _filter_loads store c = Ok []).
Proof.
  intros Hs.
  assert (Hres : _filter_loads store c
    = Ok (take 3 (sort_by (sort_key (given (equipment_type c))) key_leb
                    (List.map coerce_rate (List.filter (matches c) (dicts_of store)))))).
  { unfold _filter_loads. by rewrite (ranked_loads_ok c store Hs). }
  split_and!.
  - exact Hres.
  - eexists. split; [exact Hres|]. rewrite length_take. lia.
  - intros Hnone. by rewrite Hres, Hnone.
Qed.

(** C10.  A criterion made of white space only, or empty, is an absent
    criterion: for each of origin city, origin state, destination city,
    destination state and equipment type, the result is the one with that
    criterion left out, whatever the store and the other criteria. *)
Theorem blank_criterion_absent (store : list value)
    (oc os dc ds pd et : option string) (s : string) :
  PyStr.blank s = true ->
  _filter_loads store (Criteria (Some s) os dc ds pd et)
  = _filter_loads store (Criteria None os dc ds pd et)
  /\ _filter_loads store (Criteria oc (Some s) dc ds pd et)
     = _filter_loads store (Criteria oc None dc ds pd et)
  /\ _filter_loads store (Criteria oc os (Some s) ds pd et)
     = _filter_loads store (Criteria oc os None ds pd et)
  /\ _filter_loads store (Criteria oc os dc (Some s) pd et)
     = _filter_loads store (Criteria oc os dc None pd et)
  /\ _filter_loads store (Criteria oc os dc ds pd (Some s))
     = _filter_loads store (Criteria oc os dc ds pd None)
  /\ _filter_loads store (Criteria None None None None None (Some s))
     = _filter_loads store no_criteria.
Proof.
  intros Hs. unfold _filter_loads, no_criteria.
  rewrite !ranked_loads_unfold. simpl.
  rewrite !(given_blank s Hs).
  by change (given None) with "".
Qed.

End FilterClaims.

(** ** The carrier helpers *)

Section CarrierFacts.
Context `{PyBuiltins}.

Lemma py_eq_str_true v s : py_eq_str v s = true <-> v = VStr s.
Proof.
  destruct v; simpl; try by split.
  rewrite bool_decide_eq_true. split; [by intros ->|by intros [= ->]].
Qed.

Lemma since_ok date :
  str_or_falsy date = true ->
  (if py_bool date then py_add_str " since " date else Ok "") = Ok (since_text date).
Proof.
  destruct date; simpl; intros Hd; try done;
    try (apply negb_true_iff in Hd; by rewrite Hd).
  by case_bool_decide.
Qed.

(** The verdict, by cases. *)
Lemma compute_verdict_cases carrier :
  date_ok carrier = true ->
  compute_verdict carrier
  = Ok (verdict_of (py_eq_str (dict_get carrier "allowToOperate") "N")
          (py_eq_str (dict_get carrier "outOfService") "Y")
          (since_text (dict_get carrier "outOfServiceDate"))).
Proof.
  intros Hd. unfold compute_verdict, date_ok in *.
  destruct (py_eq_str (dict_get carrier "allowToOperate") "N"),
           (py_eq_str (dict_get carrier "outOfService") "Y"); simpl;
    rewrite ?(since_ok _ Hd); reflexivity.
Qed.

Lemma first_some_app {A B} (f : A -> option B) l1 l2 :
  first_some f (l1 ++ l2)
  = match first_some f l1 with
    | Some b => Some b
    | None => first_some f l2
    end.
Proof.
  induction l1 as [|x t IH]; simpl; [done|]. by destruct (f x).
Qed.

Lemma first_some_None {A B} (f : A -> option B) l :
  first_some f l = None <-> forall x, x ∈ l -> f x = None.
Proof.
  induction l as [|x t IH]; simpl.
  - split; [|done]. intros _ x Hx. by apply elem_of_nil in Hx.
  - destruct (f x) eqn:Hfx.
    + split; [done|]. intros Hall. rewrite <- Hfx. apply Hall. left.
    + rewrite IH. split.
      * intros Hall y [->|Hy]%elem_of_cons; auto.
      * intros Hall y Hy. apply Hall. by right.
Qed.

Lemma first_some_Some {A B} (f : A -> option B) l b :
  first_some f l = Some b ->
  exists i x, l !! i = Some x /\ f x = Some b
              /\ forall j y, j < i -> l !! j = Some y -> f y = None.
Proof.
  induction l as [|x t IH]; simpl; [done|].
  destruct (f x) eqn:Hfx.
  - intros [= ->]. exists 0, x. split_and!; [done..|]. intros; lia.
  - intros (i & y & Hi & Hy & Hbefore)%IH. exists (S i), y. split_and!; [done..|].
    intros [|j] z Hj Hz; simpl in Hz; [by simplify_eq|].
    apply (Hbefore j); [lia|done].
Qed.

Lemma first_carrier_spec l : first_carrier l = first_some carrier_of l.
Proof.
  induction l as [|x t IH]; simpl; [done|].
  destruct x as [| | | | | |d]; simpl; try done.
  by destruct (dict_get d "carrier").
Qed.

Lemma scan_values_spec vs :
  scan_values vs = first_some carrier_of (concat (List.map items_of vs)).
Proof.
  induction vs as [|v t IH]; simpl; [done|].
  destruct v as [| | | | |l|]; simpl; try done.
  rewrite first_some_app, first_carrier_spec. by rewrite IH.
Qed.

Lemma choose_carrier_spec payload :
  choose_carrier payload = first_some carrier_of (places payload).
Proof.
  destruct payload as [| | | | |l|d]; simpl; try done.
  - apply first_carrier_spec.
  - destruct (dict_get d "carrier"); try apply scan_values_spec. done.
Qed.

(** C6 (as amended).  For a carrier record whose out-of-service date is a
    string, null or missing, [compute_verdict] returns a verdict: not
    eligible with "allowToOperate=N" in the reason when allowToOperate is
    "N"; not eligible with "outOfService=Y" in the reason, followed by
    " since " and the date when there is one, when outOfService is "Y";
    the two fragments joined by "; " when both hold; eligible with the
    fixed reason when neither holds, as for a record with neither key. *)
Theorem verdict_rules (carrier : dict) :
  date_ok carrier = true ->
  exists ok reason,
    compute_verdict carrier = Ok (ok, reason)
    /\ (dict_get carrier "allowToOperate" = VStr "N" ->
        ok = false /\ PyStr.contains "allowToOperate=N" reason = true)
    /\ (dict_get carrier "outOfService" = VStr "Y" ->
        ok = false
        /\ PyStr.contains "outOfService=Y" reason = true
        /\ forall d, dict_get carrier "outOfServiceDate" = VStr d -> d <> "" ->
                     PyStr.contains ("outOfService=Y since " +:+ d) reason = true)
    /\ (dict_get carrier "allowToOperate" = VStr "N" ->
        dict_get carrier "outOfService" = VStr "Y" ->
        reason = "allowToOperate=N" +:+ "; " +:+ "outOfService=Y"
                 +:+ since_text (dict_get carrier "outOfServiceDate"))
    /\ (dict_get carrier "allowToOperate" <> VStr "N" ->
        dict_get carrier "outOfService" <> VStr "Y" ->
        ok = true /\ reason = active_reason)
    /\ (dict_lookup carrier "allowToOperate" = None ->
        dict_lookup carrier "outOfService" = None ->
        ok = true /\ reason = active_reason).
Proof.
  intros Hd.
  pose proof (compute_verdict_cases carrier Hd) as Hcv.
  assert (Hsince : forall d, dict_get carrier "outOfServiceDate" = VStr d -> d <> "" ->
            since_text (dict_get carrier "outOfServiceDate") = " since " +:+ d).
  { intros d -> Hne. simpl. by rewrite bool_decide_eq_false_2. }
  assert (Hmissing : forall k s, dict_lookup carrier k = None ->
            py_eq_str (dict_get carrier k) s = false).
  { intros k s Hk. unfold dict_get. by rewrite Hk. }
  destruct (py_eq_str (dict_get carrier "allowToOperate") "N") eqn:Ha;
    destruct (py_eq_str (dict_get carrier "outOfService") "Y") eqn:Ho;
    unfold verdict_of in Hcv; eexists _, _; (split; [exact Hcv|]).
  - (* barred and out of service *)
    split_and!.
    + intros _. split; [done|]. apply PyStrFacts.contains_spec.
      by eexists "", _.
    + intros _. split_and!; [done| |].
      * apply PyStrFacts.contains_spec. by exists "allowToOperate=N; ", (since_text (dict_get carrier "outOfServiceDate")).
      * intros d Hdate Hne. rewrite (Hsince d Hdate Hne).
        apply PyStrFacts.contains_spec. exists "allowToOperate=N; ", "".
        by rewrite PyStrFacts.app_empty_r.
    + done.
    + intros Hne. by apply py_eq_str_true in Ha.
    + intros Hl. by rewrite (Hmissing _ _ Hl) in Ha.
  - (* barred only *)
    split_and!.
    + intros _. split; [done|]. apply PyStrFacts.contains_spec. by exists "", "".
    + intros Heq%py_eq_str_true. congruence.
    + intros _ Heq%py_eq_str_true. congruence.
    + intros Hne. by apply py_eq_str_true in Ha.
    + intros Hl. by rewrite (Hmissing _ _ Hl) in Ha.
  - (* out of service only *)
    split_and!.
    + intros Heq%py_eq_str_true. congruence.
    + intros _. split_and!; [done| |].
      * apply PyStrFacts.contains_spec. by eexists "", _.
      * intros d Hdate Hne. rewrite (Hsince d Hdate Hne).
        apply PyStrFacts.contains_spec. exists "", "".
        by rewrite PyStrFacts.app_empty_r.
    + intros Heq%py_eq_str_true. congruence.
    + intros _ Hne. by apply py_eq_str_true in Ho.
    + intros _ Hl. by rewrite (Hmissing _ _ Hl) in Ho.
  - (* neither *)
    split_and!.
    + intros Heq%py_eq_str_true. congruence.
    + intros Heq%py_eq_str_true. congruence.
    + intros Heq%py_eq_str_true. congruence.
    + done.
    + done.
Qed.

(** C7.  [choose_carrier] returns the first carrier object along the places
    of the payload: the payload itself and then the items of its list-valued
    fields, in order, when it is a mapping; its items when it is a list.  It
    returns [None] exactly when no place has one, and on [None] the endpoint
    answers 404. *)
Theorem choose_carrier_first (payload : value) :
  choose_carrier payload = first_some carrier_of (places payload)
  /\ (choose_carrier payload = None <->
      forall x, x ∈ places payload -> carrier_of x = None)
  /\ (forall c, choose_carrier payload = Some c ->
      exists i x, places payload !! i = Some x /\ carrier_of x = Some c
                  /\ forall j y, j < i -> places payload !! j = Some y ->
                                  carrier_of y = None)
  /\ (forall mc status,
      choose_carrier payload = None ->
      status <> 401%Z -> status <> 404%Z -> (status < 500)%Z ->
      exists detail, find_carrier mc status payload = HTTPException 404 detail).
Proof.
  split_and!.
  - apply choose_carrier_spec.
  - rewrite choose_carrier_spec. apply first_some_None.
  - intros c. rewrite choose_carrier_spec. apply first_some_Some.
  - intros mc status Hnone H401 H404 H500. unfold find_carrier.
    rewrite Hnone.
    destruct (Z.eqb_spec status 401); [done|].
    destruct (Z.eqb_spec status 404); [done|].
    destruct (Z.leb_spec 500 status); [lia|]. eauto.
Qed.

End CarrierFacts.

(** ** The record store *)

Section StoreFacts.
Context `{PyBuiltins}.

(** C8.  [_load_file_rows] raises for a path that, lower-cased, ends in
    neither ".json" nor ".csv", and for a JSON file whose top-level value is
    no array; and whenever it raises, whatever the exception, [LOADS] is the
    list of the two demo records. *)
Theorem load_failure_falls_back (w : world) (path : string) :
  (PyStr.endswith (PyStr.lower path) ".json" = false ->
   PyStr.endswith (PyStr.lower path) ".csv" = false ->
   _load_file_rows w path = Raise (RuntimeError "LOADS_PATH must be .json or .csv"))
  /\ (forall f data,
       PyStr.endswith (PyStr.lower path) ".json" = true ->
       open_file w path = Ok f -> json_load w f = Ok data ->
       (forall rows, data <> VList rows) ->
       _load_file_rows w path = Raise (RuntimeError "loads.json must contain a JSON array"))
  /\ (forall e, _load_file_rows w path = Raise e -> LOADS w path = demo_loads)
  /\ (forall rows, _load_file_rows w path = Ok rows -> LOADS w path = rows)
  /\ List.map (fun r => py_get r "load_id") demo_loads
     = [Ok (VStr "L-1001"); Ok (VStr "L-1002")].
Proof.
  split_and!.
  - intros Hj Hc. unfold _load_file_rows. by rewrite Hj, Hc.
  - intros f data Hj Hf Hd Hnot. unfold _load_file_rows.
    rewrite Hj, Hf. simpl. rewrite Hd. simpl.
    destruct data; try done. by destruct (Hnot l).
  - intros e He. unfold LOADS. by rewrite He.
  - intros rows Hr. unfold LOADS. by rewrite Hr.
  - done.
Qed.

End StoreFacts.

(** ** The metrics aggregator *)

Section MetricsFacts.
Context `{PyBuiltins}.

Abbreviation group_sizes bc := (List.map (fun kv : string * list OfferLog => length kv.2) bc).

Lemma setdefault_append_sum bc cid o :
  sum_list (group_sizes (setdefault_append bc cid o)) = S (sum_list (group_sizes bc)).
Proof.
  induction bc as [|[k v] t IH]; simpl; [done|].
  case_bool_decide; simpl.
  - rewrite length_app. simpl. lia.
  - rewrite IH. lia.
Qed.


Lemma setdefault_append_keys bc cid o :
  List.map fst (setdefault_append bc cid o)
  = if bool_decide (cid ∈ List.map fst bc) then List.map fst bc
    else List.map fst bc ++ [cid].
Proof.
  induction bc as [|[k v] t IH]; simpl; [done|].
  - destruct (bool_decide (k = cid)) eqn:Hk; simpl.
    + apply bool_decide_eq_true in Hk as ->.
      rewrite bool_decide_eq_true_2; [done|]. left.
    + apply bool_decide_eq_false in Hk. rewrite IH.
      destruct (bool_decide (cid ∈ List.map fst t)) eqn:Hin.
      * apply bool_decide_eq_true in Hin.
        rewrite bool_decide_eq_true_2; [done|]. by right.
      * apply bool_decide_eq_false in Hin.
        rewrite bool_decide_eq_false_2; [done|].
        intros [->|Hc]%elem_of_cons; done.
Qed.

Lemma group_offers_sum offers bc :
  sum_list (group_sizes (group_offers offers bc))
  = sum_list (group_sizes bc) + length (grouped_offers offers).
Proof.
  revert bc. induction offers as [|o rest IH]; intros bc; simpl.
  - lia.
  - destruct (bool_decide (o_call_id o = "")); simpl.
    + apply IH.
    + rewrite IH, setdefault_append_sum. lia.
Qed.


Lemma group_offers_keys offers bc :
  NoDup (List.map fst bc) ->
  NoDup (List.map fst (group_offers offers bc))
  /\ forall k, k ∈ List.map fst (group_offers offers bc)
               <-> k ∈ List.map fst bc
                   \/ k ∈ List.map o_call_id (grouped_offers offers).
Proof.
  revert bc. induction offers as [|o rest IH]; intros bc Hbc; simpl.
  - split; [done|]. intros k. split; [auto|]. intros [|Hk]; [done|].
    by apply elem_of_nil in Hk.
  - destruct (bool_decide (o_call_id o = "")); simpl.
    + by apply IH.
    + assert (Hnd : NoDup (List.map fst (setdefault_append bc (o_call_id o) o))).
      { rewrite setdefault_append_keys.
        destruct (bool_decide (o_call_id o ∈ List.map fst bc)) eqn:Hin; [done|].
        apply bool_decide_eq_false in Hin.
        apply NoDup_app. split_and!; [done| |apply NoDup_singleton].
        intros k Hk ->%list_elem_of_singleton. done. }
      destruct (IH _ Hnd) as [Hnd' Hkeys]. split; [done|].
      intros k. rewrite Hkeys, setdefault_append_keys, elem_of_cons.
      destruct (bool_decide (o_call_id o ∈ List.map fst bc)) eqn:Hin.
      * apply bool_decide_eq_true in Hin.
        split; [tauto|]. intros [|[->|]]; auto.
      * rewrite elem_of_app, list_elem_of_singleton. tauto.
Qed.







Lemma rounds_of_length offers : length (rounds_of offers) = length (call_ids offers).
Proof.
  unfold rounds_of, call_ids. rewrite length_map.
  destruct (group_offers_keys offers []) as [Hnd Hkeys]; [constructor|].
  rewrite <- (length_map fst). apply Permutation_length.
  apply NoDup_Permutation; [done|apply NoDup_remove_dups|].
  intros k. rewrite Hkeys, elem_of_remove_dups. split; [|auto].
  intros [Hk|]; [|done]. by apply elem_of_nil in Hk.
Qed.

Lemma counter_add_lookup c k k' :
  default 0 (counter_add c k !! k')
  = default 0 (c !! k') + (if bool_decide (k = k') then 1 else 0).
Proof.
  unfold counter_add. rewrite lookup_insert.
  case_decide as Hk; subst.
  - rewrite bool_decide_eq_true_2 by done. simpl. lia.
  - rewrite bool_decide_eq_false_2 by done. lia.
Qed.

Lemma counter_fold_lookup l c k' :
  default 0 (foldl counter_add c l !! k')
  = default 0 (c !! k') + count_where (fun k => bool_decide (k = k')) l.
Proof.
  revert c. induction l as [|k t IH]; intros c; simpl.
  - unfold count_where. simpl. lia.
  - rewrite IH, counter_add_lookup. unfold count_where. simpl.
    destruct (bool_decide (k = k')); simpl; lia.
Qed.

Lemma counter_fold_positive l c :
  (forall k n, c !! k = Some n -> 1 <= n) ->
  forall k n, foldl counter_add c l !! k = Some n -> 1 <= n.
Proof.
  revert c. induction l as [|k0 t IH]; intros c Hc; simpl; [done|].
  apply IH. intros k n. unfold counter_add. rewrite lookup_insert.
  case_decide; [intros [= <-]; lia|apply Hc].
Qed.


(** What [Counter] holds for a key: its number of occurrences, and no entry
    at all when there is none. *)
Lemma Counter_lookup l k :
  Counter l !! k
  = if bool_decide (count_where (fun k' => bool_decide (k' = k)) l = 0) then None
    else Some (count_where (fun k' => bool_decide (k' = k)) l).
Proof.
  pose proof (counter_fold_lookup l ∅ k) as Hsum.
  pose proof (counter_fold_positive l ∅) as Hpos.
  fold (Counter l) in Hsum, Hpos. rewrite lookup_empty in Hsum. simpl in Hsum.
  destruct (Counter l !! k) as [n|] eqn:Hk; simpl in Hsum.
  - assert (1 <= n) by (eapply Hpos; [|exact Hk]; intros ??; by rewrite lookup_empty).
    rewrite bool_decide_eq_false_2 by lia. by rewrite Hsum.
  - by rewrite bool_decide_eq_true_2.
Qed.


End MetricsFacts.

(** ** The load filter on the heap *)

Section HeapFacts.
Context `{PyBuiltins}.

Lemma seq_heap_ok {A B} (m : M A) (k : A -> M B) h a h' :
  m h = (Ok a, h') -> seq_heap m k h = k a h'.
Proof. intros Hm. unfold seq_heap. by rewrite Hm. Qed.

Lemma seq_heap_raise {A B} (m : M A) (k : A -> M B) h e h' :
  m h = (Raise e, h') -> seq_heap m k h = (Raise e, h').
Proof. intros Hm. unfold seq_heap. by rewrite Hm. Qed.

Lemma keeps_ret {A} n (a : A) : keeps n (ret a).
Proof. by intros h Hn. Qed.

Lemma keeps_lift {A} n (r : result A) : keeps n (lift r).
Proof. by intros h Hn. Qed.

Lemma keeps_alloc n o : keeps n (alloc o).
Proof.
  intros h Hn. simpl. rewrite length_app. split; [|lia].
  by rewrite take_app_le.
Qed.

Lemma keeps_load_list n l : keeps n (load_list l).
Proof. intros h Hn. unfold load_list. by repeat case_match. Qed.

Lemma keeps_load_value n l : keeps n (load_value l).
Proof. intros h Hn. unfold load_value. by repeat case_match. Qed.

Lemma keeps_store n l o : n <= l -> keeps n (store l o).
Proof.
  intros Hl h Hn. simpl. rewrite length_insert. split; [|done].
  by rewrite take_insert_ge.
Qed.

Lemma keeps_seq {A B} n (m : M A) (k : A -> M B) :
  keeps n m -> (forall a, keeps n (k a)) -> keeps n (seq_heap m k).
Proof.
  intros Hm Hk h Hn. unfold seq_heap.
  destruct (Hm h Hn) as [Htake Hlen].
  destruct (m h) as [[a|e] h']; simpl in *; [|done].
  destruct (Hk a h' Hlen) as [Htake' Hlen']. split; [|done].
  by rewrite Htake'.
Qed.

(** The copy is a new object, after the objects there are; the coercion
    updates the copy. *)
Lemma copy_record_run d h :
  copy_record (VDict d) h
  = (Ok (length h), h ++ [ORecord (VDict (coerce_rate d))]).
Proof.
  unfold copy_record, seq_heap, lift, alloc, load_value, store, ret. simpl.
  rewrite list_lookup_middle by done. simpl.
  unfold coerce_rate.
  destruct (py_float (dict_get d "loadboard_rate")); simpl; [|done].
  rewrite insert_app_r_alt by done. by rewrite Nat.sub_diag.
Qed.

Lemma keeps_copy_record n r : keeps n (copy_record r).
Proof.
  intros h Hn. destruct r;
    try (by unfold copy_record, seq_heap, lift; simpl).
  rewrite copy_record_run. simpl. rewrite length_app. split; [|lia].
  by rewrite take_app_le.
Qed.

Lemma keeps_list_append n out r2 : n <= out -> keeps n (list_append out r2).
Proof.
  intros Hout. apply keeps_seq; [apply keeps_load_list|].
  intros items. by apply keeps_store.
Qed.

Lemma keeps_filter_loop n oc os dc ds et pickup out rs :
  n <= out -> keeps n (filter_loop_heap oc os dc ds et pickup out rs).
Proof.
  intros Hout. induction rs as [|r rest IH]; simpl; [apply keeps_ret|].
  apply keeps_seq; [apply keeps_load_value|]. intros v.
  apply keeps_seq; [apply keeps_lift|]. intros m.
  apply keeps_seq; [|by intros _].
  destruct m; [|apply keeps_ret].
  apply keeps_seq; [apply keeps_copy_record|].
  intros r2. by apply keeps_list_append.
Qed.

Lemma keeps_keyed_items n et items : keeps n (keyed_items et items).
Proof.
  induction items as [|x rest IH]; simpl; [apply keeps_ret|].
  apply keeps_seq; [apply keeps_load_value|]. intros v.
  apply keeps_seq; [apply keeps_lift|]. intros d.
  apply keeps_seq; [done|]. intros tl. apply keeps_ret.
Qed.

Lemma keeps_list_sort n et out : n <= out -> keeps n (list_sort et out).
Proof.
  intros Hout. apply keeps_seq; [apply keeps_load_list|]. intros items.
  apply keeps_seq; [apply keeps_keyed_items|]. intros keyed.
  by apply keeps_store.
Qed.

(** From [out = []] on, with [out] a new object. *)
Lemma keeps_filter_loads LOADS c h :
  take (length h) (_filter_loads_heap LOADS c h).2 = h
  /\ length h <= length (_filter_loads_heap LOADS c h).2.
Proof.
  unfold _filter_loads_heap.
  rewrite !norm_opt.
  do 5 (erewrite seq_heap_ok; [|reflexivity]).
  erewrite seq_heap_ok; [|reflexivity].
  set (n := length h).
  match goal with |- context [seq_heap ?m ?k (h ++ ?o)] =>
    assert (Hk : keeps n (seq_heap m k)) end.
  { apply keeps_seq; [apply keeps_load_list|]. intros rs.
    apply keeps_seq; [by apply keeps_filter_loop|]. intros _.
    apply keeps_seq; [by apply keeps_list_sort|]. intros _.
    apply keeps_seq; [apply keeps_load_list|]. intros items.
    apply keeps_alloc. }
  destruct (Hk (h ++ [OList []])) as [Htake Hlen].
  { rewrite length_app. simpl. lia. }
  split; [|done]. rewrite Htake. rewrite take_app_le by done.
  by rewrite take_ge.
Qed.

Lemma record_match_dict oc os dc ds et pickup v m :
  record_match oc os dc ds et pickup v = Ok m -> exists d, v = VDict d.
Proof. destruct v; try done. eauto. Qed.

Lemma insert_by_map {A B K} (f : A -> B) (key : B -> K) leb x l :
  insert_by key leb (f x) (f <$> l) = f <$> insert_by (fun a => key (f a)) leb x l.
Proof.
  induction l as [|y t IH]; csimpl; [done|].
  destruct (leb (key (f x)) (key (f y))); csimpl; [done|]. by rewrite IH.
Qed.

Lemma sort_by_map {A B K} (f : A -> B) (key : B -> K) leb l :
  sort_by key leb (f <$> l) = f <$> sort_by (fun a => key (f a)) leb l.
Proof.
  induction l as [|x t IH]; csimpl; [done|]. by rewrite IH, insert_by_map.
Qed.

(** One more matching record: its copy goes to a new location, which is
    appended to [out]. *)
Lemma add_copy_run h0 cs d :
  seq_heap (copy_record (VDict d)) (fun r2 => list_append (length h0) r2)
    (h0 ++ OList (seq (S (length h0)) (length cs)) :: records cs)
  = (Ok (),
     h0 ++ OList (seq (S (length h0)) (length (cs ++ [coerce_rate d])))
        :: records (cs ++ [coerce_rate d])).
Proof.
  erewrite seq_heap_ok; [|apply copy_record_run].
  unfold list_append, seq_heap, load_list, store.
  rewrite <- app_assoc. simpl.
  rewrite list_lookup_middle by done.
  rewrite insert_app_r_alt by done. rewrite Nat.sub_diag. simpl.
  do 3 f_equal.
  - assert (length (h0 ++ OList (seq (S (length h0)) (length cs)) :: records cs)
            = S (length h0) + length cs) as ->.
    { rewrite length_app. simpl. unfold records. rewrite length_fmap. lia. }
    rewrite length_app. simpl. by rewrite Nat.add_1_r, seq_S.
  - unfold records. by rewrite fmap_app.
Qed.

Lemma filter_loop_heap_run oc os dc ds et pickup h0 rs vs cs :
  Forall2 (fun r v => h0 !! r = Some (ORecord v)) rs vs ->
  match filter_loop oc os dc ds et pickup vs with
  | Ok out =>
      filter_loop_heap oc os dc ds et pickup (length h0) rs
        (h0 ++ OList (seq (S (length h0)) (length cs)) :: records cs)
      = (Ok (),
         h0 ++ OList (seq (S (length h0)) (length (cs ++ out)))
            :: records (cs ++ out))
  | Raise e =>
      (filter_loop_heap oc os dc ds et pickup (length h0) rs
         (h0 ++ OList (seq (S (length h0)) (length cs)) :: records cs)).1
      = Raise e
  end.
Proof.
  intros HF. revert cs. induction HF as [|r v rs vs Hr HF IH]; intros cs; simpl.
  - by rewrite app_nil_r.
  - erewrite seq_heap_ok; cycle 1.
    { unfold load_value. rewrite lookup_app_l by by eapply lookup_lt_Some.
      by rewrite Hr. }
    destruct (record_match oc os dc ds et pickup v) as [m|e] eqn:Hm; simpl.
    + erewrite seq_heap_ok; [|reflexivity].
      destruct m.
      * destruct (record_match_dict _ _ _ _ _ _ _ _ Hm) as [d ->]. simpl.
        erewrite seq_heap_ok; [|apply add_copy_run].
        specialize (IH (cs ++ [coerce_rate d])).
        destruct (filter_loop oc os dc ds et pickup vs); simpl; [|done].
        by rewrite <- app_assoc in IH.
      * simpl. erewrite seq_heap_ok; [|reflexivity].
        specialize (IH cs).
        by destruct (filter_loop oc os dc ds et pickup vs).
    + done.
Qed.

Lemma keyed_items_run et h items ds :
  Forall2 (fun l d => h !! l = Some (ORecord (VDict d))) items ds ->
  keyed_items et items h
  = (Ok ((fun ld => (sort_key et ld.2, ld.1)) <$> zip items ds), h).
Proof.
  induction 1 as [|l d items ds Hl HF IH]; simpl; [done|].
  erewrite seq_heap_ok; cycle 1.
  { unfold load_value. by rewrite Hl. }
  erewrite seq_heap_ok; [|reflexivity].
  erewrite seq_heap_ok; [|exact IH]. done.
Qed.

(** The new records sit after [out], in the order of their creation. *)
Lemma records_lookup h0 items ds :
  Forall2 (fun l d => (h0 ++ OList items :: records ds) !! l = Some (ORecord (VDict d))
                      /\ length h0 <= l)
    (seq (S (length h0)) (length ds)) ds.
Proof.
  apply Forall2_same_length_lookup_2; [by rewrite length_seq|].
  intros i l d [-> Hi]%lookup_seq Hd. split; [|lia].
  rewrite lookup_app_r by lia.
  replace (S (length h0) + i - length h0) with (S i) by lia. simpl.
  unfold records. by rewrite list_lookup_fmap, Hd.
Qed.

Lemma Forall2_zip_fst_snd {A B} (P : A -> B -> Prop) l k :
  Forall2 P l k -> Forall (fun p => P p.1 p.2) (zip l k).
Proof. induction 1; simpl; by constructor. Qed.

Lemma Forall_fst_snd {A B} (P : A -> B -> Prop) (l : list (A * B)) :
  Forall (fun p => P p.1 p.2) l -> Forall2 P (l.*1) (l.*2).
Proof. induction 1; simpl; by constructor. Qed.

Lemma seq_heap_fst_raise {A B} (m : M A) (k : A -> M B) h e :
  (m h).1 = Raise e -> (seq_heap m k h).1 = Raise e.
Proof. unfold seq_heap. destruct (m h) as [[a|e'] h']; simpl; congruence. Qed.

(** [out.sort] puts the locations of the new records in ranked order. *)
Lemma list_sort_run et h0 ds :
  exists locs,
    list_sort et (length h0)
      (h0 ++ OList (seq (S (length h0)) (length ds)) :: records ds)
    = (Ok (), h0 ++ OList locs :: records ds)
    /\ Forall2 (fun l d => (h0 ++ OList locs :: records ds) !! l
                           = Some (ORecord (VDict d))
                           /\ length h0 <= l)
         locs (sort_by (sort_key et) key_leb ds).
Proof.
  set (items := seq (S (length h0)) (length ds)).
  set (sp := sort_by (fun ld : loc * dict => sort_key et ld.2) key_leb (zip items ds)).
  exists (sp.*1). split.
  - unfold list_sort.
    erewrite seq_heap_ok; cycle 1.
    { unfold load_list. by rewrite list_lookup_middle. }
    erewrite seq_heap_ok; cycle 1.
    { apply keyed_items_run. eapply Forall2_impl; [apply records_lookup|].
      by intros l d [Hl _]. }
    unfold store. rewrite insert_app_r_alt by done. rewrite Nat.sub_diag. simpl.
    do 4 f_equal.
    rewrite (sort_by_map (fun ld : loc * dict => (sort_key et ld.2, ld.1)) fst).
    simpl. fold sp.
    change (List.map snd ((fun ld : loc * dict => (sort_key et ld.2, ld.1)) <$> sp))
      with (snd <$> ((fun ld : loc * dict => (sort_key et ld.2, ld.1)) <$> sp)).
    by rewrite <- list_fmap_compose.
  - replace (sort_by (sort_key et) key_leb ds) with (sp.*2); cycle 1.
    { unfold sp. rewrite <- (sort_by_map snd (sort_key et)).
      rewrite snd_zip; [done|]. unfold items. by rewrite length_seq. }
    apply Forall_fst_snd.
    eapply Forall_forall. intros p Hp.
    assert (Hperm : sp ≡ₚ zip items ds) by apply sort_by_perm.
    rewrite Hperm in Hp.
    pose proof (Forall2_zip_fst_snd _ _ _ (records_lookup h0 (sp.*1) ds)) as Hall.
    rewrite Forall_forall in Hall. by apply Hall.
Qed.

(** On a store laid out in the heap, the run on the heap computes what
    [_filter_loads] computes, in new objects. *)
Lemma filter_loads_heap_run h LOADS c rs vs :
  h !! LOADS = Some (OList rs) ->
  Forall2 (fun r v => h !! r = Some (ORecord v)) rs vs ->
  match _filter_loads vs c with
  | Ok ds =>
      exists res locs,
        (_filter_loads_heap LOADS c h).1 = Ok res
        /\ (_filter_loads_heap LOADS c h).2 !! res = Some (OList locs)
        /\ Forall2 (fun l d => (_filter_loads_heap LOADS c h).2 !! l
                               = Some (ORecord (VDict d))
                               /\ length h <= l) locs ds
  | Raise e => (_filter_loads_heap LOADS c h).1 = Raise e
  end.
Proof.
  intros HL HF. unfold _filter_loads, _filter_loads_heap.
  rewrite ranked_loads_unfold, !norm_opt.
  do 5 (erewrite seq_heap_ok; [|reflexivity]).
  erewrite seq_heap_ok; [|reflexivity].
  change (h ++ [OList []])
    with (h ++ OList (seq (S (length h)) (length (@nil dict))) :: records []).
  erewrite seq_heap_ok; cycle 1.
  { unfold load_list. rewrite lookup_app_l by by eapply lookup_lt_Some.
    by rewrite HL. }
  pose proof (filter_loop_heap_run (given (origin_city c)) (given (origin_state c))
                (given (destination_city c)) (given (destination_state c))
                (given (equipment_type c)) (pickup_date c) h rs vs [] HF) as Hloop.
  destruct (filter_loop _ _ _ _ _ _ vs) as [out|e]; simpl.
  - simpl in Hloop. erewrite seq_heap_ok; [|exact Hloop].
    destruct (list_sort_run (given (equipment_type c)) h out) as (locs & Hsort & Hlocs).
    erewrite seq_heap_ok; [|exact Hsort].
    erewrite seq_heap_ok; cycle 1.
    { unfold load_list. by rewrite list_lookup_middle. }
    unfold alloc. simpl.
    exists (length (h ++ OList locs :: records out)), (take 3 locs).
    split_and!; [done| |].
    + by rewrite list_lookup_middle.
    + apply Forall2_take. eapply Forall2_impl; [exact Hlocs|].
      intros l d [Hl Hge]. split; [|done]. by apply lookup_app_l_Some.
  - by apply seq_heap_fst_raise.
Qed.

(** C9.  A run of [_filter_loads] on the heap leaves every object there was
    as it was, the list [LOADS] and each of its records among them: the
    rate is coerced in a copy, a new object, and [append], [sort] and the
    slice work on new lists.  On a store laid out in the heap the run
    returns what [_filter_loads] computes, held by objects that were not
    there before. *)
Theorem filter_leaves_store (h : list object) (LOADS : loc) (c : criteria) :
  take (length h) (_filter_loads_heap LOADS c h).2 = h
  /\ (forall l o, h !! l = Some o ->
                  (_filter_loads_heap LOADS c h).2 !! l = Some o)
  /\ (forall rs vs,
        h !! LOADS = Some (OList rs) ->
        Forall2 (fun r v => h !! r = Some (ORecord v)) rs vs ->
        match _filter_loads vs c with
        | Ok ds =>
            exists res locs,
              (_filter_loads_heap LOADS c h).1 = Ok res
              /\ (_filter_loads_heap LOADS c h).2 !! res = Some (OList locs)
              /\ Forall2 (fun l d => (_filter_loads_heap LOADS c h).2 !! l
                                     = Some (ORecord (VDict d))
                                     /\ length h <= l) locs ds
        | Raise e => (_filter_loads_heap LOADS c h).1 = Raise e
        end).
Proof.
  destruct (keeps_filter_loads LOADS c h) as [Htake Hlen].
  split_and!.
  - exact Htake.
  - intros l o Hl. rewrite <- Htake in Hl.
    by apply lookup_take_Some in Hl as [Hl _].
  - apply filter_loads_heap_run.
Qed.

End HeapFacts.

(** ** More facts about strings: reversal, stripping, case *)

Module PyStrMore.
Import PyStr PyStrFacts.

Lemma app_assoc' (s t u : string) : (s +:+ t) +:+ u = s +:+ t +:+ u.
Proof. induction s as [|c s IH]; [done|]. by rewrite !app_cons, IH. Qed.

Lemma rev_app_spec s t : String.rev_app s t = String.rev s +:+ t.
Proof.
  revert t. induction s as [|c s IH]; intros t; [done|].
  unfold String.rev. simpl. rewrite (IH (String c "")), (IH (String c t)).
  by rewrite app_assoc'.
Qed.

Lemma rev_cons c s : String.rev (String c s) = String.rev s +:+ String c "".
Proof. unfold String.rev at 1. simpl. apply rev_app_spec. Qed.

Lemma rev_snoc s c : String.rev (s +:+ String c "") = String c (String.rev s).
Proof.
  induction s as [|a s IH]; [done|].
  by rewrite app_cons, !rev_cons, IH.
Qed.

Lemma rev_involutive s : String.rev (String.rev s) = s.
Proof.
  induction s as [|c s IH]; [done|]. by rewrite rev_cons, rev_snoc, IH.
Qed.


Lemma lstrip_clean s : starts_clean (lstrip s) = true.
Proof.
  induction s as [|c s IH]; [done|]. simpl.
  destruct (isspace c) eqn:Hc; [done|]. simpl. by rewrite Hc.
Qed.

Lemma lstrip_id s : starts_clean s = true -> lstrip s = s.
Proof. destruct s as [|c s]; [done|]. simpl. by intros ->%negb_true_iff. Qed.

Lemma lstrip_snoc s c :
  isspace c = false -> lstrip (s +:+ String c "") = lstrip s +:+ String c "".
Proof.
  intros Hc. induction s as [|a s IH].
  - change ("" +:+ String c "") with (String c ""). simpl. by rewrite Hc.
  - rewrite app_cons. simpl. destruct (isspace a); [done|]. by rewrite app_cons.
Qed.

Lemma rstrip_starts_clean s : starts_clean s = true -> starts_clean (rstrip s) = true.
Proof.
  destruct s as [|c s]; [done|]. simpl. intros Hc%negb_true_iff.
  unfold rstrip. rewrite rev_cons, (lstrip_snoc _ _ Hc), rev_snoc. simpl.
  by rewrite Hc.
Qed.

Lemma rstrip_id s : starts_clean (String.rev s) = true -> rstrip s = s.
Proof. intros Hs. unfold rstrip. by rewrite (lstrip_id _ Hs), rev_involutive. Qed.

Lemma rstrip_ends_clean s : starts_clean (String.rev (rstrip s)) = true.
Proof. unfold rstrip. rewrite rev_involutive. apply lstrip_clean. Qed.

(** [strip] leaves no white space at either end, and nothing to strip. *)
Lemma strip_clean s :
  starts_clean (strip s) = true /\ starts_clean (String.rev (strip s)) = true.
Proof.
  split; [apply rstrip_starts_clean, lstrip_clean|apply rstrip_ends_clean].
Qed.

Lemma strip_idempotent s : strip (strip s) = strip s.
Proof.
  destruct (strip_clean s) as [Hl Hr]. unfold strip at 1.
  by rewrite (lstrip_id _ Hl), (rstrip_id _ Hr).
Qed.

Lemma lower_char_idempotent c : lower_char (lower_char c) = lower_char c.
Proof. by destruct c as [[] [] [] [] [] [] [] []]. Qed.

Lemma isspace_lower_char c : isspace (lower_char c) = isspace c.
Proof. by destruct c as [[] [] [] [] [] [] [] []]. Qed.

Lemma lower_idempotent s : lower (lower s) = lower s.
Proof.
  induction s as [|c s IH]; [done|]. simpl. by rewrite lower_char_idempotent, IH.
Qed.

Lemma lower_app s t : lower (s +:+ t) = lower s +:+ lower t.
Proof. induction s as [|c s IH]; [done|]. rewrite !app_cons. simpl. by rewrite IH, app_cons. Qed.

Lemma lower_rev s : lower (String.rev s) = String.rev (lower s).
Proof.
  induction s as [|c s IH]; [done|]. simpl.
  by rewrite !rev_cons, lower_app, IH.
Qed.

Lemma lower_lstrip s : lower (lstrip s) = lstrip (lower s).
Proof.
  induction s as [|c s IH]; [done|]. simpl.
  rewrite isspace_lower_char. by destruct (isspace c).
Qed.

Lemma lower_strip s : lower (strip s) = strip (lower s).
Proof.
  unfold strip, rstrip. by rewrite lower_rev, lower_lstrip, lower_rev, lower_lstrip.
Qed.

End PyStrMore.

Section FilterMore.
Context `{PyBuiltins}.

Lemma norm_raises v : str_or_falsy v = false -> _norm v = Raise AttributeError.
Proof.
  unfold _norm, py_or. destruct v; simpl; try done;
    intros Hv%negb_false_iff; by rewrite Hv.
Qed.

Lemma in_raises p v :
  iterable_or_falsy v = false -> py_in p (py_or v (VStr "")) = Raise TypeError.
Proof.
  unfold py_or. destruct v; simpl; try done;
    intros Hv%negb_false_iff; by rewrite Hv.
Qed.

Lemma in_defined p v :
  iterable_or_falsy v = true -> exists b, py_in p (py_or v (VStr "")) = Ok b.
Proof.
  unfold py_or. destruct v; simpl; intros Hv;
    try (apply negb_true_iff in Hv; rewrite Hv); simpl; eauto;
    destruct (negb _); simpl; eauto.
Qed.

(** The loop body returns on an accepted record and raises on any other. *)
Lemma record_match_cases oc os dc ds et pickup r :
  if record_accepted pickup r
  then exists m, record_match oc os dc ds et pickup r = Ok m
  else record_match oc os dc ds et pickup r = Raise AttributeError
       \/ record_match oc os dc ds et pickup r = Raise TypeError.
Proof.
  destruct r as [| | | | | |d]; simpl; auto.
  unfold record_match. simpl.
  destruct (str_or_falsy (dict_get d "origin")) eqn:Ho; simpl.
  2:{ rewrite (norm_raises _ Ho). auto. }
  rewrite (norm_field _ Ho). simpl.
  destruct (str_or_falsy (dict_get d "destination")) eqn:Hd; simpl.
  2:{ rewrite (norm_raises _ Hd). auto. }
  rewrite (norm_field _ Hd). simpl.
  cbv zeta.
  destruct (bool_decide (et = "")); simpl; rewrite ?norm_VStr; simpl;
  (destruct (py_bool (opt_str pickup)); simpl; [|eauto];
   destruct (iterable_or_falsy (dict_get d "pickup_datetime")) eqn:Hp;
   [destruct (in_defined (default "" pickup) _ Hp) as [b ->]; simpl; eauto
   |rewrite (in_raises _ _ Hp); auto]).
Qed.

Lemma filter_loop_cases oc os dc ds et pickup store :
  if forallb (record_accepted pickup) store
  then exists out, filter_loop oc os dc ds et pickup store = Ok out
  else filter_loop oc os dc ds et pickup store = Raise AttributeError
       \/ filter_loop oc os dc ds et pickup store = Raise TypeError.
Proof.
  induction store as [|r rest IH]; simpl; [eauto|].
  pose proof (record_match_cases oc os dc ds et pickup r) as Hr.
  destruct (record_accepted pickup r) eqn:Hacc; simpl.
  - destruct Hr as [m ->]. simpl.
    assert (Hcopy : exists r2,
      (if m then let* d := py_dict r in Ok [coerce_rate d] else Ok []) = Ok r2).
    { destruct m; [|eauto]. destruct r; simpl in Hacc; try done. simpl. eauto. }
    destruct Hcopy as [r2 ->]. simpl.
    destruct (forallb (record_accepted pickup) rest).
    + destruct IH as [out ->]. simpl. eauto.
    + destruct IH as [-> | ->]; auto.
  - destruct Hr as [-> | ->]; auto.
Qed.

Lemma filter_loop_length oc os dc ds et pickup store out :
  filter_loop oc os dc ds et pickup store = Ok out -> length out <= length store.
Proof.
  revert out. induction store as [|r rest IH]; intros out; simpl.
  - by intros [= <-].
  - destruct (record_match oc os dc ds et pickup r) as [m|]; [|done]. simpl.
    destruct (if m then let* d := py_dict r in Ok [coerce_rate d] else Ok [])
      as [r2|] eqn:Hr2; [|done]. simpl.
    destruct (filter_loop oc os dc ds et pickup rest) as [tl|]; [|done]. simpl.
    intros [= <-]. specialize (IH tl eq_refl). rewrite length_app.
    assert (length r2 <= 1); [|lia].
    destruct m; [|simplify_eq; simpl; lia].
    destruct (py_dict r); simpl in Hr2; simplify_eq; simpl; lia.
Qed.

Lemma sort_by_length {A K} (key : A -> K) leb l :
  length (sort_by key leb l) = length l.
Proof. apply Permutation_length, sort_by_perm. Qed.

Lemma filter_loads_length store c res :
  _filter_loads store c = Ok res -> length res <= 3 /\ length res <= length store.
Proof.
  intros (out & Hout & ->)%filter_loads_inv. rewrite length_take.
  rewrite ranked_loads_unfold in Hout.
  destruct (filter_loop _ _ _ _ _ _ store) as [pre|] eqn:Hpre; [|done].
  simpl in Hout. injection Hout as <-. rewrite sort_by_length.
  apply filter_loop_length in Hpre. lia.
Qed.

(** X1.  [_filter_loads] returns exactly on the stores all of whose records
    are accepted: mappings whose origin and destination are strings or
    falsy and, when a pickup date is asked for, whose pickup timestamp is a
    string, a list, a mapping or falsy.  On any other store it raises
    AttributeError or TypeError, whatever the criteria match. *)
Theorem filter_raises_iff (store : list value) (c : criteria) :
  (forallb (record_accepted (pickup_date c)) store = true ->
   exists res, _filter_loads store c = Ok res)
  /\ (forallb (record_accepted (pickup_date c)) store = false ->
      _filter_loads store c = Raise AttributeError
      \/ _filter_loads store c = Raise TypeError).
Proof.
  unfold _filter_loads. rewrite ranked_loads_unfold.
  pose proof (filter_loop_cases (given (origin_city c)) (given (origin_state c))
                (given (destination_city c)) (given (destination_state c))
                (given (equipment_type c)) (pickup_date c) store) as Hloop.
  split; intros Hacc; rewrite Hacc in Hloop.
  - destruct Hloop as [out ->]. simpl. eauto.
  - destruct Hloop as [-> | ->]; auto.
Qed.

(** X2.  Whenever [find_loads] answers, [count] is the number of items, at
    most three and at most the number of records of the store. *)
Theorem find_loads_count_bounds (store : list value) (c : criteria) (page : LoadsPage) :
  find_loads store c = Ok page ->
  count page = length (items page)
  /\ count page <= 3
  /\ count page <= length store.
Proof.
  unfold find_loads. destruct (_filter_loads store c) as [rows|] eqn:Hrows; [|done].
  simpl. intros [= <-]. simpl.
  destruct (filter_loads_length store c rows Hrows). auto.
Qed.

(** X3.  On a store whose records have the expected shape, [find_loads]
    answers, and [count] is the number of matching records, capped at
    three. *)
Theorem find_loads_count_matching (store : list value) (c : criteria) :
  store_ok store = true ->
  exists page,
    find_loads store c = Ok page
    /\ count page = min 3 (length (List.filter (matches c) (dicts_of store))).
Proof.
  intros Hs. unfold find_loads, _filter_loads.
  rewrite (ranked_loads_ok c store Hs). simpl. eexists. split; [done|]. simpl.
  by rewrite length_take, sort_by_length, length_map.
Qed.

End FilterMore.

Section FilterMore2.
Context `{PyBuiltins}.

Lemma key_leb_refl a : key_leb a a = true.
Proof.
  destruct a as [b s]. unfold key_leb. simpl.
  rewrite bool_decide_eq_true_2 by done.
  apply Is_true_true. change (String.le s s). done.
Qed.

Lemma filter_map_commute {A B} (f : A -> B) (p : B -> bool) l :
  List.filter p (List.map f l) = List.map f (List.filter (fun a => p (f a)) l).
Proof.
  induction l as [|x t IH]; simpl; [done|]. destruct (p (f x)); simpl; by rewrite IH.
Qed.

Lemma filter_filter_and {A} (p q : A -> bool) l :
  List.filter q (List.filter p l) = List.filter (fun a => p a && q a) l.
Proof.
  induction l as [|x t IH]; simpl; [done|].
  destruct (p x); simpl; [destruct (q x); simpl|]; by rewrite IH.
Qed.

(** X4.  The ranking is stable: on a store whose records have the expected
    shape, the records with one and the same sort key come, in the ranked
    list, in the order they have in the store. *)
Theorem ranking_keeps_store_order (store : list value) (c : criteria) :
  store_ok store = true ->
  exists ranked,
    ranked_loads store c = Ok ranked
    /\ _filter_loads store c = Ok (take 3 ranked)
    /\ forall k : bool * string,
         List.filter (fun x => bool_decide (sort_key (given (equipment_type c)) x = k)) ranked
         = List.map coerce_rate
             (List.filter
                (fun d => matches c d
                          && bool_decide (sort_key (given (equipment_type c)) d = k))
                (dicts_of store)).
Proof.
  intros Hs. eexists. split; [by apply ranked_loads_ok|]. split.
  { unfold _filter_loads. by rewrite (ranked_loads_ok c store Hs). }
  intros k. rewrite sort_by_stable by apply key_leb_refl.
  rewrite filter_map_commute, filter_filter_and.
  f_equal. apply filter_ext. intros d. by rewrite sort_key_coerce_rate.
Qed.

(** What a returned record went through: the loop body said yes. *)
Lemma filter_loop_elements oc os dc ds et pickup store out x :
  filter_loop oc os dc ds et pickup store = Ok out -> x ∈ out ->
  exists d, VDict d ∈ store
            /\ record_match oc os dc ds et pickup (VDict d) = Ok true
            /\ x = coerce_rate d.
Proof.
  revert out. induction store as [|r rest IH]; intros out; simpl.
  - intros [= <-] Hx. by apply elem_of_nil in Hx.
  - destruct (record_match oc os dc ds et pickup r) as [m|] eqn:Hm; [|done]. simpl.
    destruct m; simpl.
    + destruct r as [| | | | | |d]; try done. simpl.
      destruct (filter_loop oc os dc ds et pickup rest) as [tl|]; [|done]. simpl.
      intros [= <-] [->|Hx]%elem_of_cons.
      * exists d. split_and!; [left|done..].
      * destruct (IH tl eq_refl Hx) as (d' & Hd' & Hm' & ->).
        exists d'. split_and!; [by right|done..].
    + destruct (filter_loop oc os dc ds et pickup rest) as [tl|]; [|done]. simpl.
      intros [= <-] Hx.
      destruct (IH tl eq_refl Hx) as (d' & Hd' & Hm' & ->).
      exists d'. split_and!; [by right|done..].
Qed.

(** A record that passed the loop body has the equipment type asked for. *)
Lemma record_match_equipment oc os dc ds et pickup d :
  et <> "" ->
  record_match oc os dc ds et pickup (VDict d) = Ok true ->
  norm_str (py_str (dict_get d "equipment_type")) = et.
Proof.
  intros Het. unfold record_match. simpl.
  destruct (_norm (dict_get d "origin")) as [ro|]; [|done]. simpl.
  destruct (_norm (dict_get d "destination")) as [rd|]; [|done]. simpl.
  cbv zeta. rewrite (bool_decide_eq_false_2 _ Het). simpl.
  rewrite norm_VStr. simpl.
  destruct (bool_decide (et = norm_str (py_str (dict_get d "equipment_type")))) eqn:Heq.
  { by apply bool_decide_eq_true in Heq. }
  simpl. destruct (py_bool (opt_str pickup)); simpl; [|done].
  destruct (py_in _ _) as [b|]; [|done]. simpl. by destruct b.
Qed.

(** X5.  When an equipment type is asked for, every returned record has it
    (after normalisation), so that the first part of the sort key is the
    same for all of them and the result is in ascending order of the pickup
    timestamp strings alone. *)
Theorem requested_equipment_is_met (store : list value) (c : criteria) (res : list dict) :
  given (equipment_type c) <> "" ->
  _filter_loads store c = Ok res ->
  Forall (fun x => norm_str (py_str (dict_get x "equipment_type"))
                   = given (equipment_type c)
                   /\ equipment_mismatch c x = false) res
  /\ StronglySorted (fun x y => String.le (pickup_string x) (pickup_string y)) res.
Proof.
  intros Het (out & Hout & ->)%filter_loads_inv.
  pose proof (ranked_loads_sorted _ _ _ Hout) as Hsorted.
  rewrite ranked_loads_unfold in Hout.
  destruct (filter_loop _ _ _ _ _ _ store) as [pre|] eqn:Hpre; [|done].
  simpl in Hout. injection Hout as <-.
  assert (Hall : Forall (fun x => norm_str (py_str (dict_get x "equipment_type"))
                                  = given (equipment_type c)
                                  /\ equipment_mismatch c x = false)
                   (take 3 (sort_by (sort_key (given (equipment_type c))) key_leb pre))).
  { apply Forall_forall. intros x Hx%(subseteq_take 3).
    rewrite sort_by_perm in Hx.
    destruct (filter_loop_elements _ _ _ _ _ _ _ _ _ Hpre Hx) as (d & _ & Hm & ->).
    apply (record_match_equipment _ _ _ _ _ _ _ Het) in Hm.
    unfold equipment_mismatch. rewrite sort_key_coerce_rate.
    rewrite dict_get_coerce_rate by done. split; [done|].
    unfold sort_key. simpl. by rewrite bool_decide_eq_true_2. }
  split; [exact Hall|].
  apply (sorted_take _ _ 3) in Hsorted.
  revert Hall Hsorted.
  generalize (take 3 (sort_by (sort_key (given (equipment_type c))) key_leb pre)).
  intros l Hall Hsorted. induction Hsorted as [|x l Hl IH Hx]; [constructor|].
  apply Forall_cons in Hall as [[_ Hmx] Hall]. constructor; [by apply IH|].
  rewrite Forall_forall in Hx, Hall. apply Forall_forall. intros y Hy.
  specialize (Hx y Hy). destruct (Hall y Hy) as [_ Hmy].
  unfold rank_le, by_key, key_leb in Hx. unfold equipment_mismatch in Hmx, Hmy.
  rewrite Hmx, Hmy in Hx. simpl in Hx. by apply Is_true_true.
Qed.

(** X6.  [_filter_loads] reads the five normalised criteria through [_norm]
    only: two sets of criteria with the same normal forms of origin city,
    origin state, destination city, destination state and equipment type,
    and the same pickup date, give the same result on every store. *)
Theorem criteria_normal_form (store : list value) (c c' : criteria) :
  _norm (opt_str (origin_city c)) = _norm (opt_str (origin_city c')) ->
  _norm (opt_str (origin_state c)) = _norm (opt_str (origin_state c')) ->
  _norm (opt_str (destination_city c)) = _norm (opt_str (destination_city c')) ->
  _norm (opt_str (destination_state c)) = _norm (opt_str (destination_state c')) ->
  _norm (opt_str (equipment_type c)) = _norm (opt_str (equipment_type c')) ->
  pickup_date c = pickup_date c' ->
  _filter_loads store c = _filter_loads store c'
  /\ find_loads store c = find_loads store c'.
Proof.
  intros Hoc Hos Hdc Hds Het Hpd.
  assert (Heq : _filter_loads store c = _filter_loads store c').
  { unfold _filter_loads, ranked_loads. by rewrite Hoc, Hos, Hdc, Hds, Het, Hpd. }
  split; [exact Heq|]. unfold find_loads. by rewrite Heq.
Qed.

End FilterMore2.

Section FilterMore3.
Context `{PyBuiltins}.

Lemma dict_set_keys (d : dict) k v :
  dict_lookup d k <> None -> List.map fst (dict_set d k v) = List.map fst d.
Proof.
  induction d as [|[k0 v0] t IH]; simpl; [done|].
  destruct (bool_decide (k0 = k)); simpl; [done|]. intros Hk. by rewrite IH.
Qed.

Lemma dict_lookup_set_eq (d : dict) k v : dict_lookup (dict_set d k v) k = Some v.
Proof.
  induction d as [|[k0 v0] t IH]; simpl.
  - by rewrite bool_decide_eq_true_2.
  - destruct (bool_decide (k0 = k)) eqn:Hk; simpl; by rewrite Hk.
Qed.

Lemma dict_set_set (d : dict) k v : dict_set (dict_set d k v) k v = dict_set d k v.
Proof.
  induction d as [|[k0 v0] t IH]; simpl.
  - by rewrite bool_decide_eq_true_2.
  - destruct (bool_decide (k0 = k)) eqn:Hk; simpl; rewrite Hk; [done|]. by rewrite IH.
Qed.

Lemma py_float_not_none v f : py_float v = Ok f -> v <> VNone.
Proof. by destruct v. Qed.

(** X7.  The copy of a record that [_filter_loads] returns has the keys of
    the record, in their order, and its values, but for the rate: a rate
    that [float] converts is replaced by the double, any other is left, and
    no rate is added where there is none.  Copying a copy changes
    nothing. *)
Theorem coerce_rate_frame (d : dict) :
  List.map fst (coerce_rate d) = List.map fst d
  /\ (forall k, k <> "loadboard_rate" ->
                dict_lookup (coerce_rate d) k = dict_lookup d k)
  /\ (forall f, py_float (dict_get d "loadboard_rate") = Ok f ->
                dict_lookup (coerce_rate d) "loadboard_rate" = Some (VFloat f))
  /\ (forall e, py_float (dict_get d "loadboard_rate") = Raise e ->
                coerce_rate d = d)
  /\ (dict_lookup d "loadboard_rate" = None -> coerce_rate d = d)
  /\ coerce_rate (coerce_rate d) = coerce_rate d.
Proof.
  unfold coerce_rate.
  destruct (py_float (dict_get d "loadboard_rate")) as [f|e] eqn:Hf.
  - assert (Hkey : dict_lookup d "loadboard_rate" <> None).
    { intros Hnone. apply py_float_not_none in Hf. apply Hf.
      unfold dict_get. by rewrite Hnone. }
    split_and!.
    + by apply dict_set_keys.
    + intros k Hk. by apply dict_lookup_set_ne.
    + intros f' [= <-]. apply dict_lookup_set_eq.
    + done.
    + done.
    + unfold dict_get at 1. rewrite dict_lookup_set_eq. simpl.
      apply dict_set_set.
  - split_and!; try done. by rewrite Hf.
Qed.

(** X8.  [_norm] on strings is a normal form: its result has no white space
    at either end and is in lower case, so that [_norm] maps it to itself;
    and the case and the white space around a string do not count. *)
Theorem norm_is_normal_form (s : string) :
  _norm (VStr (norm_str s)) = Ok (norm_str s)
  /\ _norm (VStr (PyStr.lower s)) = _norm (VStr s)
  /\ _norm (VStr (PyStr.strip s)) = _norm (VStr s)
  /\ PyStr.strip (norm_str s) = norm_str s
  /\ PyStr.lower (norm_str s) = norm_str s.
Proof.
  rewrite !norm_VStr. unfold norm_str.
  assert (Hstrip : PyStr.strip (PyStr.lower (PyStr.strip s))
                   = PyStr.lower (PyStr.strip s)).
  { by rewrite <- PyStrMore.lower_strip, PyStrMore.strip_idempotent. }
  split_and!.
  - by rewrite Hstrip, PyStrMore.lower_idempotent.
  - by rewrite <- PyStrMore.lower_strip, PyStrMore.lower_idempotent.
  - by rewrite PyStrMore.strip_idempotent.
  - exact Hstrip.
  - apply PyStrMore.lower_idempotent.
Qed.

Lemma demo_loads_ok : store_ok demo_loads = true.
Proof. reflexivity. Qed.

(** X9.  After a failed load every search succeeds: when [_load_file_rows]
    raises, [find_loads] on [LOADS] answers for all criteria, with at most
    two items. *)
Theorem search_after_failed_load (w : world) (path : string) (e : exn) (c : criteria) :
  _load_file_rows w path = Raise e ->
  exists page, find_loads (LOADS w path) c = Ok page /\ count page <= 2.
Proof.
  intros Hload. unfold LOADS. rewrite Hload. simpl.
  unfold find_loads, _filter_loads.
  rewrite (ranked_loads_ok c demo_loads demo_loads_ok). simpl.
  eexists. split; [done|]. simpl.
  rewrite length_take, sort_by_length, length_map.
  pose proof (filter_length (matches c) (dicts_of demo_loads)) as Hlen.
  simpl in Hlen. lia.
Qed.

Lemma sub_rule_none f : sub_rule None f = true.
Proof. done. Qed.

Lemma eq_rule_none f : eq_rule None f = true.
Proof. done. Qed.

Lemma matches_asks_less c c' d :
  asks_less c' c -> matches c d = true -> matches c' d = true.
Proof.
  intros (Hoc & Hos & Hdc & Hds & Hpd & Het). unfold matches.
  rewrite !andb_true_iff. intros [[[[[M1 M2] M3] M4] M5] M6].
  split_and!.
  - by destruct Hoc as [-> | ->].
  - by destruct Hos as [-> | ->].
  - by destruct Hdc as [-> | ->].
  - by destruct Hds as [-> | ->].
  - by destruct Het as [-> | ->].
  - by destruct Hpd as [-> | ->].
Qed.

(** X10.  Asking for less never loses a record: on a store whose records
    have the expected shape, every record returned for criteria [c] is among
    the ranked matches of any criteria that leave some of those of [c]
    out. *)
Theorem asking_less_keeps_records (store : list value) (c c' : criteria) :
  store_ok store = true ->
  asks_less c' c ->
  exists res ranked',
    _filter_loads store c = Ok res
    /\ ranked_loads store c' = Ok ranked'
    /\ forall x, x ∈ res -> x ∈ ranked'.
Proof.
  intros Hs Hless. do 2 eexists. split_and!.
  - unfold _filter_loads. by rewrite (ranked_loads_ok c store Hs).
  - by apply ranked_loads_ok.
  - intros x Hx%(subseteq_take 3). rewrite sort_by_perm in Hx |- *.
    rewrite list_elem_of_In, in_map_iff in Hx |- *.
    destruct Hx as (d & <- & [Hd Hm]%filter_In). exists d. split; [done|].
    apply filter_In. split; [done|]. by eapply matches_asks_less.
Qed.

End FilterMore3.

Section CarrierMore.
Context `{PyBuiltins}.

Lemma compute_verdict_general carrier :
  compute_verdict carrier
  = if date_breaks carrier then Raise TypeError
    else Ok (verdict_of (py_eq_str (dict_get carrier "allowToOperate") "N")
               (py_eq_str (dict_get carrier "outOfService") "Y")
               (since_text (dict_get carrier "outOfServiceDate"))).
Proof.
  unfold compute_verdict, date_breaks.
  destruct (py_eq_str (dict_get carrier "allowToOperate") "N");
  destruct (py_eq_str (dict_get carrier "outOfService") "Y"); simpl; try done;
  destruct (dict_get carrier "outOfServiceDate") as [|b|z|f|s|l|d]; simpl; try done;
    try (destruct b; done);
    try (destruct (negb (z =? 0)%Z); done);
    try (destruct (float_bool f); done);
    try (case_bool_decide; done);
    try (destruct l; done);
    try (destruct d; done).
Qed.

Lemma verdict_of_facts barred oos since :
  ((verdict_of barred oos since).1 = true <-> barred = false /\ oos = false)
  /\ ((verdict_of barred oos since).1 = true
      <-> (verdict_of barred oos since).2 = active_reason)
  /\ (verdict_of barred oos since).2 <> "Not eligible"
  /\ (verdict_of barred oos since).2 <> "".
Proof.
  destruct barred, oos; simpl; split_and!; try done;
    try (split; [done|intros [??]; done]);
    try (split; [done|]);
    rewrite ?PyStrFacts.app_cons; try discriminate.
Qed.

(** X11.  [compute_verdict] raises (TypeError) exactly on a record that is
    out of service with a date that is truthy and no string.  When it
    returns, the carrier is eligible exactly when allowToOperate is not "N"
    and outOfService is not "Y", exactly then the reason is the fixed
    "Active" one, and the reason is never empty and never the fallback
    "Not eligible". *)
Theorem verdict_outcomes (carrier : dict) :
  (date_breaks carrier = true -> compute_verdict carrier = Raise TypeError)
  /\ (date_breaks carrier = false -> exists v, compute_verdict carrier = Ok v)
  /\ forall ok why,
       compute_verdict carrier = Ok (ok, why) ->
       (ok = true <-> dict_get carrier "allowToOperate" <> VStr "N"
                      /\ dict_get carrier "outOfService" <> VStr "Y")
       /\ (ok = true <-> why = active_reason)
       /\ why <> "Not eligible"
       /\ why <> "".
Proof.
  rewrite compute_verdict_general.
  destruct (date_breaks carrier); split_and!; try done; [eauto|].
  intros ok why [= Hv].
  destruct (verdict_of_facts (py_eq_str (dict_get carrier "allowToOperate") "N")
              (py_eq_str (dict_get carrier "outOfService") "Y")
              (since_text (dict_get carrier "outOfServiceDate")))
    as (Hok & Hwhy & Hne & Hnonempty).
  rewrite Hv in *. simpl in *. split_and!; [|done..].
  rewrite Hok. split.
  - intros [Ha Ho]. split; intros E%py_eq_str_true; congruence.
  - intros [Ha Ho]. split.
    + destruct (py_eq_str _ "N") eqn:E; [|done]. by apply py_eq_str_true in E.
    + destruct (py_eq_str _ "Y") eqn:E; [|done]. by apply py_eq_str_true in E.
Qed.

Lemma bfn_cons a t :
  t <> "" -> before_final_newline (String a t) = String a (before_final_newline t).
Proof. by destruct t. Qed.

Lemma app_snoc_nonempty v c : v +:+ String c "" <> "".
Proof. by destruct v. Qed.

Lemma bfn_snoc v c :
  c <> newline ->
  before_final_newline (v +:+ String c "") = v +:+ String c "".
Proof.
  intros Hc. induction v as [|a v IH].
  - change ("" +:+ String c "") with (String c ""). simpl.
    by rewrite bool_decide_eq_false_2.
  - rewrite PyStrFacts.app_cons, bfn_cons by apply app_snoc_nonempty.
    by rewrite IH.
Qed.

Lemma bfn_clean t :
  starts_clean (String.rev t) = true -> before_final_newline t = t.
Proof.
  intros Ht. rewrite <- (PyStrMore.rev_involutive t).
  destruct (String.rev t) as [|c u]; [done|].
  rewrite PyStrMore.rev_cons. apply bfn_snoc. intros ->. done.
Qed.

Lemma bfn_strip mc : before_final_newline (PyStr.strip mc) = PyStr.strip mc.
Proof. apply bfn_clean, PyStrMore.strip_clean. Qed.

(** X12.  [find_carrier] asks the carrier service only for a docket number
    of four to seven digits: with the web key set, a number that after
    [strip] is anything else is answered 400 whatever the service would
    say, and otherwise the answer depends on the service only through its
    reply at the address of that number. *)
Theorem docket_number_is_checked (FMCSA_WEBKEY FMCSA_BASE : string)
    (get : string -> result reply) (mc : string) :
  FMCSA_WEBKEY <> "" ->
  (MC_RE_match (PyStr.strip mc) = true
   <-> all_digits (PyStr.strip mc) = true
       /\ 4 <= String.length (PyStr.strip mc) <= 7)
  /\ (MC_RE_match (PyStr.strip mc) = false ->
      find_carrier_endpoint FMCSA_WEBKEY FMCSA_BASE get mc
      = HTTPException 400 (VStr "Invalid MC number format"))
  /\ (forall get' : string -> result reply,
        get' (docket_url FMCSA_BASE (PyStr.strip mc))
        = get (docket_url FMCSA_BASE (PyStr.strip mc)) ->
        find_carrier_endpoint FMCSA_WEBKEY FMCSA_BASE get' mc
        = find_carrier_endpoint FMCSA_WEBKEY FMCSA_BASE get mc).
Proof.
  intros Hkey. split_and!.
  - unfold MC_RE_match. rewrite bfn_strip, !andb_true_iff.
    rewrite Nat.leb_le, Nat.leb_le. tauto.
  - intros Hmc. unfold find_carrier_endpoint.
    rewrite (bool_decide_eq_false_2 _ Hkey). by rewrite Hmc.
  - intros get' Hget. unfold find_carrier_endpoint, docket_url in *.
    rewrite (bool_decide_eq_false_2 _ Hkey).
    destruct (MC_RE_match (PyStr.strip mc)); simpl; [|done]. by rewrite Hget.
Qed.

(** X13.  A verdict comes out of [find_carrier] only from a carrier object:
    the number passed the check, the service replied with a status other
    than 401, 404 and 5xx and a JSON body, [choose_carrier] found a
    non-empty carrier object in it, and the verdict is the one
    [compute_verdict] gives for that object, with the MC number asked for
    when the object has none. *)
Theorem verdict_comes_from_carrier (FMCSA_WEBKEY FMCSA_BASE : string)
    (get : string -> result reply) (mc : string) (v : CarrierVerdict) :
  find_carrier_endpoint FMCSA_WEBKEY FMCSA_BASE get mc = Returns v ->
  FMCSA_WEBKEY <> ""
  /\ MC_RE_match (PyStr.strip mc) = true
  /\ exists r data c,
       get (docket_url FMCSA_BASE (PyStr.strip mc)) = Ok r
       /\ status_code r <> 401%Z /\ status_code r <> 404%Z
       /\ (status_code r < 500)%Z
       /\ json r = Ok data
       /\ choose_carrier data = Some c /\ c <> []
       /\ compute_verdict c = Ok (eligible v, reason v)
       /\ (py_bool (dict_get c "mcNumber") = false -> mc_number v = PyStr.strip mc)
       /\ find_carrier (PyStr.strip mc) (status_code r) data = Returns v.
Proof.
  unfold find_carrier_endpoint, docket_url.
  case_bool_decide as Hkey; [done|].
  destruct (MC_RE_match (PyStr.strip mc)) eqn:Hmc; simpl; [|done].
  destruct (get _) as [r|] eqn:Hget; [|done].
  destruct (Z.eqb_spec (status_code r) 401); [done|].
  destruct (Z.eqb_spec (status_code r) 404); [done|].
  destruct (Z.leb_spec 500 (status_code r)); [done|].
  destruct (json r) as [data|] eqn:Hjson; [|done].
  destruct (choose_carrier data) as [[|kv c]|] eqn:Hc; try done.
  destruct (compute_verdict (kv :: c)) as [[ok why]|] eqn:Hv; [|done].
  intros [= <-]. split_and!; [done..|].
  exists r, data, (kv :: c). simpl. split_and!; try done.
  - intros Hfalsy. unfold py_or. by rewrite Hfalsy.
  - unfold find_carrier. rewrite Hc, Hv.
    destruct (Z.eqb_spec (status_code r) 401); [done|].
    destruct (Z.eqb_spec (status_code r) 404); [done|].
    destruct (Z.leb_spec 500 (status_code r)); [lia|]. done.
Qed.


End CarrierMore.

Section MetricsMore.
Context `{PyBuiltins}.


Lemma parse_lines_bad {A} (parse : string -> result A) lines x e :
  x ∈ lines -> PyStr.strip x <> "" -> parse x = Raise e ->
  exists e', parse_lines parse lines = Raise e'.
Proof.
  intros Hx Hnb Hbad. induction lines as [|y t IH]; [by apply elem_of_nil in Hx|].
  simpl. apply elem_of_cons in Hx as [<-|Hx].
  - rewrite bool_decide_eq_false_2 by done. rewrite Hbad. eauto.
  - destruct (IH Hx) as [e' He']. case_bool_decide; [eauto|].
    destruct (parse y); simpl; [|eauto]. rewrite He'. eauto.
Qed.

Lemma parse_lines_nonblank {A} (parse : string -> result A) lines :
  parse_lines parse (List.filter (fun x => negb (bool_decide (PyStr.strip x = ""))) lines)
  = parse_lines parse lines.
Proof.
  induction lines as [|x t IH]; simpl; [done|].
  case_bool_decide as Hx; simpl; [done|].
  rewrite bool_decide_eq_false_2 by done. by rewrite IH.
Qed.

Lemma parse_lines_length {A} (parse : string -> result A) lines l :
  parse_lines parse lines = Ok l ->
  length l
  = length (List.filter (fun x => negb (bool_decide (PyStr.strip x = ""))) lines).
Proof.
  revert l. induction lines as [|x t IH]; simpl; intros l.
  - by intros [= <-].
  - case_bool_decide; simpl; [apply IH|].
    destruct (parse x); simpl; [|done].
    destruct (parse_lines parse t); simpl; [|done].
    intros [= <-]. simpl. f_equal. by apply IH.
Qed.


Lemma metrics_of_bad_log parse_offer parse_summary lines summary_file e :
  parse_lines parse_offer lines = Raise e ->
  metrics_of_files parse_offer parse_summary (Ok lines) summary_file
  = metrics_of_files parse_offer parse_summary (Ok []) summary_file.
Proof. unfold metrics_of_files. simpl. by intros ->. Qed.

(** X15.  Blank lines of either log are skipped: [metrics] is what it is
    on the logs without them. *)
Theorem blank_lines_are_skipped
    (parse_offer : string -> result OfferLog)
    (parse_summary : string -> result CallSummary)
    (offers_lines summary_lines : list string) :
  metrics_of_files parse_offer parse_summary (Ok offers_lines) (Ok summary_lines)
  = metrics_of_files parse_offer parse_summary
      (Ok (List.filter (fun x => negb (bool_decide (PyStr.strip x = ""))) offers_lines))
      (Ok (List.filter (fun x => negb (bool_decide (PyStr.strip x = ""))) summary_lines)).
Proof. unfold metrics_of_files. simpl. by rewrite !parse_lines_nonblank. Qed.

(** X16.  One line of the offers log that is not blank and does not parse
    voids the whole log: [metrics] reports what it reports on an empty
    offers log, zero offers and a zero average, and goes on doing so
    whatever [log_offer] appends. *)
Theorem bad_line_voids_log
    (parse_offer : string -> result OfferLog)
    (parse_summary : string -> result CallSummary)
    (lines : list string) (summary_file : result (list string))
    (x : string) (e : exn) :
  x ∈ lines -> PyStr.strip x <> "" -> parse_offer x = Raise e ->
  metrics_of_files parse_offer parse_summary (Ok lines) summary_file
  = metrics_of_files parse_offer parse_summary (Ok []) summary_file
  /\ offers_logged (totals (metrics_of_files parse_offer parse_summary
                              (Ok lines) summary_file)) = 0
  /\ avg_rounds (totals (metrics_of_files parse_offer parse_summary
                           (Ok lines) summary_file)) = 0%Q
  /\ forall dumps body,
       metrics_of_files parse_offer parse_summary
         (Ok (log_offer dumps body lines)) summary_file
       = metrics_of_files parse_offer parse_summary (Ok []) summary_file.
Proof.
  intros Hx Hnb Hbad.
  destruct (parse_lines_bad parse_offer lines x e Hx Hnb Hbad) as [e' He'].
  split_and!.
  - by apply metrics_of_bad_log with e'.
  - by rewrite (metrics_of_bad_log _ _ _ _ e').
  - by rewrite (metrics_of_bad_log _ _ _ _ e').
  - intros dumps body.
    destruct (parse_lines_bad parse_offer (log_offer dumps body lines) x e)
      as [e'' He'']; [|done..|by apply metrics_of_bad_log with e''].
    unfold log_offer. apply elem_of_app. by left.
Qed.



End MetricsMore.

Section MetricsMore2.
Context `{PyBuiltins}.






Lemma Permutation_filter' {A} (f : A -> bool) (l l' : list A) :
  l ≡ₚ l' -> List.filter f l ≡ₚ List.filter f l'.
Proof.
  induction 1 as [|x l l' _ IH|x y l|l l' l'' _ IH1 _ IH2]; simpl.
  - done.
  - destruct (f x); by rewrite IH.
  - destruct (f x), (f y); try done. apply perm_swap.
  - by rewrite IH1.
Qed.

Lemma mean_eq (r r' : list nat) :
  sum_list r = sum_list r' -> length r = length r' -> mean r = mean r'.
Proof.
  intros Hs Hl. destruct r as [|n r], r' as [|n' r']; try done.
  unfold mean. by rewrite Hs, Hl.
Qed.

Lemma rounds_perm offers offers' :
  offers ≡ₚ offers' -> mean (rounds_of offers) = mean (rounds_of offers').
Proof.
  intros Hp. apply mean_eq.
  - unfold rounds_of. rewrite !group_offers_sum. simpl.
    unfold grouped_offers. apply Permutation_length. by apply Permutation_filter'.
  - rewrite !rounds_of_length. unfold call_ids, grouped_offers.
    apply Permutation_length. apply NoDup_Permutation; try apply NoDup_remove_dups.
    intros k. rewrite !elem_of_remove_dups.
    assert (Hm : List.map o_call_id (List.filter (fun o => negb (bool_decide (o_call_id o = ""))) offers)
                 ≡ₚ List.map o_call_id (List.filter (fun o => negb (bool_decide (o_call_id o = ""))) offers')).
    { apply Permutation_map. by apply Permutation_filter'. }
    by rewrite Hm.
Qed.

Lemma Counter_perm l l' : l ≡ₚ l' -> Counter l = Counter l'.
Proof.
  intros Hp. apply map_eq. intros k. rewrite !Counter_lookup.
  unfold count_where.
  by rewrite (Permutation_length (Permutation_filter' (fun k' => bool_decide (k' = k)) _ _ Hp)).
Qed.

(** X19.  [metrics] does not depend on the order of the entries of the two
    logs. *)
Theorem metrics_order_independent (offers offers' : list OfferLog)
    (summaries summaries' : list CallSummary) :
  offers ≡ₚ offers' -> summaries ≡ₚ summaries' ->
  metrics (Ok offers) (Ok summaries) = metrics (Ok offers') (Ok summaries').
Proof.
  intros Ho Hs. unfold metrics. simpl.
  fold (rounds_of offers). fold (rounds_of offers').
  rewrite (rounds_perm _ _ Ho), (Permutation_length Ho).
  rewrite (Counter_perm _ _ (Permutation_map (fun s => or_str (outcome s) "Other") Hs)).
  rewrite (Counter_perm _ _ (Permutation_map (fun s => or_str (sentiment s) "Neutral") Hs)).
  assert (Hc : (list_to_set (List.map s_call_id summaries) : gset string)
               = list_to_set (List.map s_call_id summaries')).
  { apply list_to_set_perm_L. by apply Permutation_map. }
  by rewrite Hc.
Qed.





End MetricsMore2.

Section HeapMore.
Context `{PyBuiltins}.

Lemma filter_loads_heap_lookup LOADS c h l o :
  h !! l = Some o -> (_filter_loads_heap LOADS c h).2 !! l = Some o.
Proof.
  intros Hl. destruct (keeps_filter_loads LOADS c h) as [Htake _].
  rewrite <- Htake in Hl. by apply lookup_take_Some in Hl as [Hl _].
Qed.

(** X21.  Searches do not interfere: after any search, successful or not,
    a second search on the same store returns what [_filter_loads] returns
    for its own criteria, in objects allocated after everything the first
    search left, and leaves every object of the first search as it is. *)
Theorem searches_do_not_interfere (h : list object) (LOADS : loc)
    (c1 c2 : criteria) (rs : list loc) (vs : list value) :
  h !! LOADS = Some (OList rs) ->
  Forall2 (fun r v => h !! r = Some (ORecord v)) rs vs ->
  (forall l o,
     (_filter_loads_heap LOADS c1 h).2 !! l = Some o ->
     (_filter_loads_heap LOADS c2 (_filter_loads_heap LOADS c1 h).2).2 !! l = Some o)
  /\ match _filter_loads vs c2 with
     | Ok ds =>
         exists res locs,
           (_filter_loads_heap LOADS c2 (_filter_loads_heap LOADS c1 h).2).1 = Ok res
           /\ (_filter_loads_heap LOADS c2 (_filter_loads_heap LOADS c1 h).2).2 !! res
              = Some (OList locs)
           /\ Forall2
                (fun l d =>
                   (_filter_loads_heap LOADS c2 (_filter_loads_heap LOADS c1 h).2).2 !! l
                   = Some (ORecord (VDict d))
                   /\ length (_filter_loads_heap LOADS c1 h).2 <= l) locs ds
     | Raise e =>
         (_filter_loads_heap LOADS c2 (_filter_loads_heap LOADS c1 h).2).1 = Raise e
     end.
Proof.
  intros HL Hrs. split.
  - intros l o. apply filter_loads_heap_lookup.
  - apply (filter_loads_heap_run _ LOADS c2 rs vs).
    + by apply filter_loads_heap_lookup.
    + eapply Forall2_impl; [exact Hrs|]. intros r v. apply filter_loads_heap_lookup.
Qed.

End HeapMore.

Section StoreMore.
Context `{PyBuiltins}.

(** X22.  Rows that [_load_file_rows] returns come from the one file at the
    path: the elements of its JSON array when the path ends in ".json", in
    any case of letters, and else the rows the CSV reader gives; they are
    the store as they are, so an empty array is an empty store, on which
    every search finds nothing, and not the demo records. *)
Theorem loaded_rows_are_the_store (w : world) (path : string) (rows : list value) :
  _load_file_rows w path = Ok rows ->
  (exists f,
     open_file w path = Ok f
     /\ ((PyStr.endswith (PyStr.lower path) ".json" = true
          /\ json_load w f = Ok (VList rows))
         \/ (PyStr.endswith (PyStr.lower path) ".json" = false
             /\ PyStr.endswith (PyStr.lower path) ".csv" = true
             /\ csv_DictReader w f = Ok rows)))
  /\ LOADS w path = rows
  /\ (rows = [] ->
      forall c, find_loads (LOADS w path) c = Ok {| items := []; count := 0 |}).
Proof.
  intros Hload. assert (HL : LOADS w path = rows) by (unfold LOADS; by rewrite Hload).
  split_and!; [|done|].
  - unfold _load_file_rows in Hload.
    destruct (PyStr.endswith (PyStr.lower path) ".json") eqn:Hj.
    + destruct (open_file w path) as [f|]; [|done]. simpl in Hload.
      destruct (json_load w f) as [data|] eqn:Hd; [|done]. simpl in Hload.
      destruct data; try done. injection Hload as ->. eauto.
    + destruct (PyStr.endswith (PyStr.lower path) ".csv") eqn:Hc; [|done].
      destruct (open_file w path) as [f|]; [|done]. simpl in Hload. eauto 6.
  - intros -> c. rewrite HL. unfold find_loads, _filter_loads.
    by rewrite ranked_loads_unfold.
Qed.

End StoreMore.

(** ** The model on examples *)

Import Examples.
#[local] Existing Instance small_floats.

(** The scenario of the specification: of the loads A (a dry van) and B (a
    reefer), a search for "Dry Van" returns A only. *)
Example dry_van_scenario : _filter_loads scenario dry_van = Ok [load_A].
Proof. vm_compute. reflexivity. Qed.

(** With nothing asked for, both come back, by pickup time. *)
Example scenario_ranked : _filter_loads scenario no_criteria = Ok [load_B; load_A].
Proof. vm_compute. reflexivity. Qed.

(** The demo store comes back by pickup time too, the rates as doubles. *)
Example demo_store_ranked :
  List.map (fun d => (dict_get d "load_id", dict_get d "loadboard_rate")) demo_ranked
  = [(VStr "L-1002", VFloat 900%Z); (VStr "L-1001", VFloat 1450%Z)].
Proof. vm_compute. reflexivity. Qed.

(** A pickup date of white space is a criterion, unlike the other five. *)
Example blank_pickup_date_is_a_criterion :
  _filter_loads scenario by_blank_date = Ok []
  /\ _filter_loads scenario no_criteria <> Ok [].
Proof.
  split; [vm_compute; reflexivity|].
  rewrite scenario_ranked. discriminate.
Qed.

(** An empty carrier object is no carrier for the endpoint. *)
Example empty_carrier_is_not_found :
  choose_carrier (VDict [("carrier", VDict [])]) = Some []
  /\ find_carrier "123456" 200 (VDict [("carrier", VDict [])])
     = HTTPException 404 VNone.
Proof. split; vm_compute; reflexivity. Qed.


(** C3, as the specification words it, fails: on a record whose origin is a
    number the filter raises. *)
Lemma filter_error_counterexample :
  ~ returns_at_most_three numeric_origin from_chicago.
Proof.
  assert (Hrun : _filter_loads numeric_origin from_chicago = Raise AttributeError)
    by (vm_compute; reflexivity).
  intros (res & Hres & _). rewrite Hrun in Hres. discriminate Hres.
Qed.

(** C6, as the specification words it, fails: with the date given as a
    number, an out-of-service record has no verdict. *)
Lemma verdict_undefined_counterexample : ~ verdict_defined numeric_date.
Proof.
  assert (Hrun : compute_verdict numeric_date = Raise TypeError)
    by (vm_compute; reflexivity).
  intros [v Hv]. rewrite Hrun in Hv. discriminate Hv.
Qed.



Lemma filter_top_three_witness :
  store_ok four_loads = true
  /\ _filter_loads four_loads no_criteria
     = Ok (take 3 (sort_by (sort_key (given (equipment_type no_criteria))) key_leb
                     (List.map coerce_rate
                        (List.filter (matches no_criteria) (dicts_of four_loads)))))
  /\ returns_at_most_three four_loads no_criteria
  /\ (List.filter (matches no_criteria) (dicts_of four_loads) = [] ->
      _filter_loads four_loads no_criteria = Ok []).
Proof.
  assert (Hok : store_ok four_loads = true) by (vm_compute; reflexivity).
  split; [exact Hok|].
  exact (filter_top_three four_loads no_criteria Hok).
Defined.


Lemma verdict_rules_witness :
  date_ok barred = true
  /\ exists ok reason,
       compute_verdict barred = Ok (ok, reason)
       /\ ok = false
       /\ reason = "allowToOperate=N; outOfService=Y since 2024-01-01".
Proof.
  assert (Hdate : date_ok barred = true) by (vm_compute; reflexivity).
  split; [exact Hdate|].
  destruct (verdict_rules barred Hdate)
    as (ok & reason & Hv & Hallow & _ & Hboth & _).
  exists ok, reason. split; [exact Hv|].
  split; [apply Hallow|apply Hboth]; vm_compute; reflexivity.
Defined.

Lemma choose_carrier_first_witness :
  choose_carrier fmcsa_reply = Some barred
  /\ exists detail,
       find_carrier "123456" 200 fmcsa_empty = HTTPException 404 detail.
Proof.
  split.
  - rewrite (proj1 (choose_carrier_first fmcsa_reply)). vm_compute. reflexivity.
  - apply (proj2 (proj2 (proj2 (choose_carrier_first fmcsa_empty))) "123456" 200%Z);
      [vm_compute; reflexivity|discriminate|discriminate|reflexivity].
Defined.

Lemma load_failure_falls_back_witness :
  _load_file_rows no_files "/app/loads.json" = Raise OSError
  /\ LOADS no_files "/app/loads.json" = demo_loads
  /\ _load_file_rows object_file "/app/loads.json"
     = Raise (RuntimeError "loads.json must contain a JSON array")
  /\ _load_file_rows no_files "/app/loads.txt"
     = Raise (RuntimeError "LOADS_PATH must be .json or .csv").
Proof.
  assert (Hmissing : _load_file_rows no_files "/app/loads.json" = Raise OSError)
    by (vm_compute; reflexivity).
  destruct (load_failure_falls_back no_files "/app/loads.json")
    as (_ & _ & Hfall & _).
  destruct (load_failure_falls_back object_file "/app/loads.json")
    as (_ & Hobj & _).
  destruct (load_failure_falls_back no_files "/app/loads.txt") as (Hext & _).
  split; [exact Hmissing|].
  split; [exact (Hfall OSError Hmissing)|].
  split; [apply (Hobj "{}" (VDict [])); [vm_compute; reflexivity..|discriminate]|].
  apply Hext; vm_compute; reflexivity.
Defined.

Lemma filter_leaves_store_witness :
  scenario_heap !! 2 = Some (OList [0; 1])
  /\ Forall2 (fun r v => scenario_heap !! r = Some (ORecord v)) [0; 1] scenario
  /\ take (length scenario_heap) (_filter_loads_heap 2 dry_van scenario_heap).2
     = scenario_heap
  /\ exists res locs,
       (_filter_loads_heap 2 dry_van scenario_heap).1 = Ok res
       /\ (_filter_loads_heap 2 dry_van scenario_heap).2 !! res = Some (OList locs)
       /\ Forall2 (fun l d => (_filter_loads_heap 2 dry_van scenario_heap).2 !! l
                              = Some (ORecord (VDict d))
                              /\ length scenario_heap <= l)
            locs [load_A].
Proof.
  assert (HL : scenario_heap !! 2 = Some (OList [0; 1])) by reflexivity.
  assert (HF : Forall2 (fun r v => scenario_heap !! r = Some (ORecord v))
                 [0; 1] scenario) by (repeat constructor).
  assert (Hpure : _filter_loads scenario dry_van = Ok [load_A])
    by (vm_compute; reflexivity).
  destruct (filter_leaves_store scenario_heap 2 dry_van) as (Hkeep & _ & Hrun).
  specialize (Hrun [0; 1] scenario HL HF). rewrite Hpure in Hrun.
  split; [exact HL|]. split; [exact HF|]. split; [exact Hkeep|]. exact Hrun.
Defined.

Lemma blank_criterion_absent_witness :
  PyStr.blank "   " = true
  /\ _filter_loads scenario (Criteria None None None None None (Some "   "))
     = _filter_loads scenario no_criteria.
Proof.
  assert (Hblank : PyStr.blank "   " = true) by (vm_compute; reflexivity).
  split; [exact Hblank|].
  exact (proj2 (proj2 (proj2 (proj2 (proj2
    (blank_criterion_absent scenario None None None None None None "   " Hblank)))))).
Defined.

Lemma filter_raises_iff_witness :
  (exists res, _filter_loads scenario dry_van = Ok res)
  /\ (_filter_loads numeric_origin from_chicago = Raise AttributeError
      \/ _filter_loads numeric_origin from_chicago = Raise TypeError).
Proof.
  destruct (filter_raises_iff scenario dry_van) as [Hok _].
  destruct (filter_raises_iff numeric_origin from_chicago) as [_ Hbad].
  split; [apply Hok|apply Hbad]; vm_compute; reflexivity.
Defined.

Lemma find_loads_count_bounds_witness :
  find_loads scenario dry_van = Ok dry_van_page
  /\ count dry_van_page = length (items dry_van_page)
  /\ count dry_van_page <= 3
  /\ count dry_van_page <= length scenario.
Proof.
  assert (Hrun : find_loads scenario dry_van = Ok dry_van_page)
    by (vm_compute; reflexivity).
  split; [exact Hrun|].
  exact (find_loads_count_bounds scenario dry_van dry_van_page Hrun).
Defined.

Lemma find_loads_count_matching_witness :
  store_ok four_loads = true
  /\ exists page,
       find_loads four_loads no_criteria = Ok page
       /\ count page
          = min 3 (length (List.filter (matches no_criteria) (dicts_of four_loads))).
Proof.
  assert (Hok : store_ok four_loads = true) by (vm_compute; reflexivity).
  split; [exact Hok|].
  exact (find_loads_count_matching four_loads no_criteria Hok).
Defined.

Lemma ranking_keeps_store_order_witness :
  store_ok scenario = true
  /\ exists ranked,
       ranked_loads scenario no_criteria = Ok ranked
       /\ _filter_loads scenario no_criteria = Ok (take 3 ranked)
       /\ forall k : bool * string,
            List.filter
              (fun x => bool_decide (sort_key (given (equipment_type no_criteria)) x = k))
              ranked
            = List.map coerce_rate
                (List.filter
                   (fun d => matches no_criteria d
                             && bool_decide
                                  (sort_key (given (equipment_type no_criteria)) d = k))
                   (dicts_of scenario)).
Proof.
  assert (Hok : store_ok scenario = true) by (vm_compute; reflexivity).
  split; [exact Hok|].
  exact (ranking_keeps_store_order scenario no_criteria Hok).
Defined.

Lemma requested_equipment_is_met_witness :
  given (equipment_type dry_van) = "dry van"
  /\ _filter_loads scenario dry_van = Ok [load_A]
  /\ Forall (fun x => norm_str (py_str (dict_get x "equipment_type"))
                      = given (equipment_type dry_van)
                      /\ equipment_mismatch dry_van x = false) [load_A]
  /\ StronglySorted (fun x y => String.le (pickup_string x) (pickup_string y)) [load_A].
Proof.
  assert (Hgiven : given (equipment_type dry_van) = "dry van")
    by (vm_compute; reflexivity).
  assert (Hasked : given (equipment_type dry_van) <> "")
    by (rewrite Hgiven; discriminate).
  assert (Hrun : _filter_loads scenario dry_van = Ok [load_A])
    by (vm_compute; reflexivity).
  split; [exact Hgiven|]. split; [exact Hrun|].
  exact (requested_equipment_is_met scenario dry_van [load_A] Hasked Hrun).
Defined.

Lemma criteria_normal_form_witness :
  _norm (opt_str (equipment_type dry_van))
  = _norm (opt_str (equipment_type dry_van_shouted))
  /\ _filter_loads scenario dry_van = _filter_loads scenario dry_van_shouted
  /\ find_loads scenario dry_van = find_loads scenario dry_van_shouted.
Proof.
  assert (Het : _norm (opt_str (equipment_type dry_van))
                = _norm (opt_str (equipment_type dry_van_shouted)))
    by (vm_compute; reflexivity).
  split; [exact Het|].
  apply (criteria_normal_form scenario dry_van dry_van_shouted);
    solve [reflexivity | exact Het].
Defined.

Lemma coerce_rate_frame_witness :
  dict_lookup (coerce_rate rated) "loadboard_rate" = Some (VFloat 900%Z)
  /\ dict_lookup (coerce_rate rated) "load_id" = dict_lookup rated "load_id"
  /\ coerce_rate load_A = load_A.
Proof.
  destruct (coerce_rate_frame rated) as (_ & Hother & Hrate & _).
  destruct (coerce_rate_frame load_A) as (_ & _ & _ & _ & Hmissing & _).
  split; [apply Hrate; vm_compute; reflexivity|].
  split; [apply Hother; discriminate|].
  apply Hmissing. vm_compute. reflexivity.
Defined.

Lemma search_after_failed_load_witness :
  _load_file_rows no_files "/app/loads.json" = Raise OSError
  /\ exists page,
       find_loads (LOADS no_files "/app/loads.json") dry_van = Ok page
       /\ count page <= 2.
Proof.
  assert (Hmissing : _load_file_rows no_files "/app/loads.json" = Raise OSError)
    by (vm_compute; reflexivity).
  split; [exact Hmissing|].
  exact (search_after_failed_load no_files "/app/loads.json" OSError dry_van Hmissing).
Defined.

Lemma asking_less_keeps_records_witness :
  store_ok scenario = true
  /\ asks_less no_criteria dry_van
  /\ exists res ranked',
       _filter_loads scenario dry_van = Ok res
       /\ ranked_loads scenario no_criteria = Ok ranked'
       /\ forall x, x ∈ res -> x ∈ ranked'.
Proof.
  assert (Hok : store_ok scenario = true) by (vm_compute; reflexivity).
  assert (Hless : asks_less no_criteria dry_van)
    by (unfold asks_less; simpl; repeat split; left; reflexivity).
  split; [exact Hok|]. split; [exact Hless|].
  exact (asking_less_keeps_records scenario dry_van no_criteria Hok Hless).
Defined.

Lemma verdict_outcomes_witness :
  compute_verdict numeric_date = Raise TypeError
  /\ exists v, compute_verdict barred = Ok v.
Proof.
  destruct (verdict_outcomes numeric_date) as (Hraise & _).
  destruct (verdict_outcomes barred) as (_ & Hreturn & _).
  split; [apply Hraise|apply Hreturn]; vm_compute; reflexivity.
Defined.

Lemma docket_number_is_checked_witness :
  MC_RE_match (PyStr.strip " 12 ") = false
  /\ find_carrier_endpoint "key" "https://carriers.test" no_service " 12 "
     = HTTPException 400 (VStr "Invalid MC number format").
Proof.
  assert (Hkey : "key" <> "") by discriminate.
  assert (Hshort : MC_RE_match (PyStr.strip " 12 ") = false)
    by (vm_compute; reflexivity).
  split; [exact Hshort|].
  destruct (docket_number_is_checked "key" "https://carriers.test" no_service " 12 " Hkey)
    as (_ & Hrefused & _).
  exact (Hrefused Hshort).
Defined.

Lemma verdict_comes_from_carrier_witness :
  find_carrier_endpoint "key" "https://carriers.test" service " 123456 "
  = Returns barred_verdict
  /\ MC_RE_match (PyStr.strip " 123456 ") = true.
Proof.
  assert (Hrun : find_carrier_endpoint "key" "https://carriers.test" service " 123456 "
                 = Returns barred_verdict) by (vm_compute; reflexivity).
  split; [exact Hrun|].
  exact (proj1 (proj2 (verdict_comes_from_carrier
                         "key" "https://carriers.test" service " 123456 "
                         barred_verdict Hrun))).
Defined.


Lemma bad_line_voids_log_witness :
  parse_offer_line "bad" = Raise ValueError
  /\ offers_logged (totals (metrics_of_files parse_offer_line parse_summary_line
                              (Ok ["{}"; "bad"; "{}"]) (Ok []))) = 0.
Proof.
  assert (Hbad : parse_offer_line "bad" = Raise ValueError) by reflexivity.
  assert (Hin : "bad" ∈ ["{}"; "bad"; "{}"]) by (right; left).
  assert (Hnb : PyStr.strip "bad" <> "") by (vm_compute; discriminate).
  split; [exact Hbad|].
  exact (proj1 (proj2 (bad_line_voids_log parse_offer_line parse_summary_line
                         ["{}"; "bad"; "{}"] (Ok []) "bad" ValueError Hin Hnb Hbad))).
Defined.



Lemma metrics_order_independent_witness :
  metrics (Ok [offer_in "call-1" 1; offer_in "call-2" 1]) (Ok [lone_summary])
  = metrics (Ok [offer_in "call-2" 1; offer_in "call-1" 1]) (Ok [lone_summary]).
Proof.
  apply metrics_order_independent; [apply perm_swap|reflexivity].
Defined.

Lemma searches_do_not_interfere_witness :
  scenario_heap !! 2 = Some (OList [0; 1])
  /\ Forall2 (fun r v => scenario_heap !! r = Some (ORecord v)) [0; 1] scenario
  /\ exists res locs,
       (_filter_loads_heap 2 no_criteria
          (_filter_loads_heap 2 dry_van scenario_heap).2).1 = Ok res
       /\ (_filter_loads_heap 2 no_criteria
             (_filter_loads_heap 2 dry_van scenario_heap).2).2 !! res
          = Some (OList locs)
       /\ Forall2
            (fun l d =>
               (_filter_loads_heap 2 no_criteria
                  (_filter_loads_heap 2 dry_van scenario_heap).2).2 !! l
               = Some (ORecord (VDict d))
               /\ length (_filter_loads_heap 2 dry_van scenario_heap).2 <= l)
            locs [load_B; load_A].
Proof.
  assert (HL : scenario_heap !! 2 = Some (OList [0; 1])) by reflexivity.
  assert (HF : Forall2 (fun r v => scenario_heap !! r = Some (ORecord v))
                 [0; 1] scenario) by (repeat constructor).
  assert (Hpure : _filter_loads scenario no_criteria = Ok [load_B; load_A])
    by (vm_compute; reflexivity).
  destruct (searches_do_not_interfere scenario_heap 2 dry_van no_criteria
              [0; 1] scenario HL HF) as [_ Hrun].
  rewrite Hpure in Hrun.
  split; [exact HL|]. split; [exact HF|]. exact Hrun.
Defined.

Lemma loaded_rows_are_the_store_witness :
  _load_file_rows empty_array_file "/app/loads.JSON" = Ok []
  /\ LOADS empty_array_file "/app/loads.JSON" = []
  /\ find_loads (LOADS empty_array_file "/app/loads.JSON") dry_van
     = Ok {| items := []; count := 0 |}.
Proof.
  assert (Hrun : _load_file_rows empty_array_file "/app/loads.JSON" = Ok [])
    by (vm_compute; reflexivity).
  destruct (loaded_rows_are_the_store empty_array_file "/app/loads.JSON" [] Hrun)
    as (_ & Hstore & Hempty).
  split; [exact Hrun|]. split; [exact Hstore|]. exact (Hempty eq_refl dry_van).
Defined.
